(** * MCX gold perpetual-long backtest: the simulation engine of
    [gold_analysis_dashboard/src/components/BacktestPanel.jsx]

    The engine ([runBacktest] and its helper [calculateYoY]) is embedded
    as executable Rocq functions, one per block of the source.

    Numbers.  A JavaScript Number is modelled by an exact rational [Q]:
    the four operations are exact, so every statement below is a
    statement about the arithmetic the code writes down, without the
    rounding of binary64.  The concrete runs use small integers, for which
    binary64 is exact as well.  The one place where the source can divide
    by zero without a guard produces a non-finite Number in JavaScript
    (NaN or an infinity, never an exception); [jsdiv] returns [None]
    there.  Inputs that are themselves NaN or infinite are outside the
    model.

    Binary64.  The compounding check compares two computed numbers, and
    at the boundary the rounding of binary64 decides the comparison.  The
    module [B64] embeds the state machine of the loop (rollover, mark to
    market, compounding check, peak) once more over primitive floats, with
    every operation rounded as JavaScript rounds it; the compounding rule is
    stated and proved there.

    Strings.  Dates and contract labels are [string]s; JavaScript's
    [<=] and [>=] on strings are the lexicographic order on code units,
    [String.leb], and [!==] is the negation of [String.eqb]. *)

From Stdlib Require Import ZArith QArith Qround Qminmax Ascii String List Lia Lqa.
From Stdlib Require Import PrimFloat.
From Stdlib Require Import Sorting.Sorted OrderedTypeEx.
From stdpp Require Import base option list gmap strings sorting.

Local Open Scope Q_scope.
Local Open Scope string_scope.

(** ** Numbers *)

(** [Math.round]: the nearest integer, halves going up. *)
Definition Math_round (x : Q) : Z := Qfloor (x + (1 # 2)).

(** [x.toFixed(f)]: the decimal with [f] fraction digits nearest to [x],
    halves going away from zero.  The decimal string is represented by its
    scaled integer [n], standing for [n / 10^f]. *)
Definition toFixed (f : nat) (x : Q) : Z :=
  let s := x * inject_Z (10 ^ Z.of_nat f) in
  if Qle_bool 0 x then Qfloor (s + (1 # 2)) else (- Qfloor (- s + (1 # 2)))%Z.

(** The value a fixed-point string with [f] fraction digits parses to. *)
Definition parseFloat (f : nat) (n : Z) : Q :=
  inject_Z n / inject_Z (10 ^ Z.of_nat f).

(** An unguarded division: [None] stands for the non-finite Number that
    JavaScript produces for a zero denominator. *)
Definition jsdiv (a b : Q) : option Q :=
  if Qeq_bool b 0 then None else Some (a / b).

(** ** Data model *)

(** One record of [fullData]. *)
Record Observation := mkObservation {
  date : string;
  premium : Q;
  price_near : Q;
  price_far : Q;
  expiry_near : string;
  expiry_far : string;
  expiry_near_date : option string;
  expiry_far_date : option string
}.

(** The [config] state of the panel. *)
Record Config := mkConfig {
  startDate : string;
  endDate : string;
  initialLots : Q;
  initialMarginPercent : Q;
  transactionCost : Q;
  compoundingFactor : Q;
  isCompounding : bool;
  neverCompound : bool
}.

(** The two object shapes pushed on [trades]; the constructor stands for
    the [type] field. *)
Inductive Trade :=
| Rollover (t_date contracts : string)
           (sellPrice buyPrice lots grossPnL cost netPnL equity : Q)
| Compounding (t_date contracts : string) (lots equity : Q) (note : string).

(** The [date] field of a ledger entry. *)
Definition trade_date (t : Trade) : string :=
  match t with
  | Rollover d _ _ _ _ _ _ _ _ => d
  | Compounding d _ _ _ _ => d
  end.

(** The [type] field of a ledger entry. *)
Definition trade_type (t : Trade) : string :=
  match t with
  | Rollover _ _ _ _ _ _ _ _ _ => "Rollover"
  | Compounding _ _ _ _ _ => "Compounding"
  end.

(** The price fields of a ledger entry, when it has them. *)
Definition trade_prices (t : Trade) : option (Q * Q) :=
  match t with
  | Rollover _ _ s b _ _ _ _ _ => Some (s, b)
  | Compounding _ _ _ _ _ => None
  end.

(** An element of [equitySeries]; [ep_drawdown] is [dd.toFixed(2)], in
    hundredths of a percent. *)
Record EquityPoint := mkEquityPoint {
  ep_date : string;
  ep_equity : Z;
  ep_lots : Q;
  ep_drawdown : Z
}.

(** An element of [drawdownSeries]. *)
Record DrawdownPoint := mkDrawdownPoint {
  dp_date : string;
  dp_drawdown : Z
}.

(** An element of the result of [calculateYoY]; [yr_return] is
    [ret.toFixed(1)] in tenths of a percent, [None] for the strings
    that a non-finite [ret] prints as. *)
Record YearlyReturn := mkYearlyReturn {
  yr_year : string;
  yr_return : option Z
}.

(** The mutable variables of [runBacktest]. *)
Record State := mkState {
  currentLots : Q;
  cash : Q;
  entryPrice : Q;
  baselineCapital : Q;
  peakEquity : Q;
  equitySeries : list EquityPoint;
  drawdownSeries : list DrawdownPoint;
  trades : list Trade
}.

(** ** The engine *)

Definition CONTRACT_MULTIPLIER : Q := 100.

Section Engine.

Variable config : Config.

(** [fullData.filter(d => d.date >= config.startDate && d.date <= config.endDate)] *)
Definition in_window (d : Observation) : bool :=
  String.leb (startDate config) (date d) && String.leb (date d) (endDate config).

Definition filterData (fullData : list Observation) : list Observation :=
  List.filter in_window fullData.

(** The body of the rollover [if]. *)
Definition doRollover (p today : Observation) (st : State) : State :=
  let sellPrice := price_near p in
  let buyPrice := price_far p in
  let rawPnL := (sellPrice - entryPrice st) * CONTRACT_MULTIPLIER * currentLots st in
  let cost := transactionCost config * currentLots st in
  let netPnL := rawPnL - cost in
  let cash' := cash st + netPnL in
  mkState (currentLots st) cash' buyPrice (baselineCapital st) (peakEquity st)
          (equitySeries st) (drawdownSeries st)
          (trades st ++
             [Rollover (date today)
                       (expiry_near p ++ " → " ++ expiry_near today)
                       sellPrice buyPrice (currentLots st) rawPnL cost netPnL cash']).

(** The rollover check: [if (prev && today.expiry_near !== prev.expiry_near)]. *)
Definition checkRollover (prev : option Observation) (today : Observation)
    (st : State) : State :=
  match prev with
  | Some p =>
      if negb (String.eqb (expiry_near today) (expiry_near p))
      then doRollover p today st else st
  | None => st
  end.

(** Mark to market, on the state left by the rollover check. *)
Definition unrealized (today : Observation) (st : State) : Q :=
  (price_near today - entryPrice st) * CONTRACT_MULTIPLIER * currentLots st.

Definition currentEquity (today : Observation) (st : State) : Q :=
  cash st + unrealized today st.

(** The condition of the compounding [if]s. *)
Definition compounding_due (eq : Q) (st : State) : bool :=
  negb (neverCompound config) && isCompounding config &&
  Qle_bool ((compoundingFactor config / 100) * baselineCapital st)
           (eq - baselineCapital st).

Definition checkCompounding (today : Observation) (eq : Q) (st : State) : State :=
  if compounding_due eq st then
    let lots' := currentLots st * 2 in
    mkState lots' (cash st) (entryPrice st) eq (peakEquity st)
            (equitySeries st) (drawdownSeries st)
            (trades st ++
               [Compounding (date today) "Position Doubled" lots' eq
                            "Profit Target Hit"])
  else st.

(** Drawdown tracking: the new peak and [dd]. *)
Definition newPeak (eq : Q) (st : State) : Q :=
  if Qlt_le_dec (peakEquity st) eq then eq else peakEquity st.

Definition drawdown (peak eq : Q) : Q :=
  if Qlt_le_dec 0 peak then ((peak - eq) / peak) * 100 else 0.

Definition trackDrawdown (today : Observation) (eq : Q) (st : State) : State :=
  let peak := newPeak eq st in
  let dd := drawdown peak eq in
  mkState (currentLots st) (cash st) (entryPrice st) (baselineCapital st) peak
          (equitySeries st ++
             [mkEquityPoint (date today) (Math_round eq) (currentLots st) (toFixed 2 dd)])
          (drawdownSeries st ++ [mkDrawdownPoint (date today) (toFixed 2 dd)])
          (trades st).

(** One iteration of the [for] loop. *)
Definition step (prev : option Observation) (today : Observation) (st : State) : State :=
  let st1 := checkRollover prev today st in
  let eq := currentEquity today st1 in
  let st2 := checkCompounding today eq st1 in
  trackDrawdown today eq st2.

(** The loop [for (i = 0; i < data.length; i++)], where [prev] is
    [data[i - 1]] and is [null] at [i = 0]. *)
Fixpoint loop (prev : option Observation) (data : list Observation) (st : State) : State :=
  match data with
  | [] => st
  | today :: rest => loop (Some today) rest (step prev today st)
  end.

(** The initial setup, from [data[0]]. *)
Definition initialCapital (d0 : Observation) : Q :=
  let startPrice := price_near d0 in
  let contractValue := startPrice * CONTRACT_MULTIPLIER * initialLots config in
  contractValue * (initialMarginPercent config / 100).

Definition initState (d0 : Observation) : State :=
  mkState (initialLots config) (initialCapital d0) (price_near d0)
          (initialCapital d0) (initialCapital d0) [] [] [].

End Engine.

(** ** Yearly returns *)

(** [d.date.split('-')[0]]: the characters before the first dash. *)
Fixpoint year_of (s : string) : string :=
  match s with
  | EmptyString => EmptyString
  | String c r => if Ascii.eqb c "-"%char then EmptyString else String c (year_of r)
  end.

(** The order of [Array.prototype.sort] without a comparator, on strings. *)
Definition str_le (a b : string) : Prop := String.leb a b = true.

#[global] Instance str_le_dec : RelDecision str_le.
Proof. intros a b. unfold str_le. apply _. Defined.

(** The body of [series.forEach]: [yearsMap] maps a year to
    [(start, end)]. *)
Definition yearsMap_add (m : gmap string (Z * Z)) (d : EquityPoint) : gmap string (Z * Z) :=
  let y := year_of (ep_date d) in
  let m1 := match m !! y with
            | None => <[ y := (ep_equity d, ep_equity d) ]> m
            | Some _ => m
            end in
  alter (fun se => (se.1, ep_equity d)) y m1.

Definition yearsMap_of (series : list EquityPoint) : gmap string (Z * Z) :=
  fold_left yearsMap_add series ∅.

(** [Object.keys(yearsMap).sort()] *)
Definition sorted_years (m : gmap string (Z * Z)) : list string :=
  merge_sort str_le (map fst (map_to_list m)).

(** [ret = ((end - start) / start) * 100], with no guard on [start]. *)
Definition yoyRet (start end_ : Z) : option Q :=
  option_map (fun r => r * 100) (jsdiv (inject_Z end_ - inject_Z start) (inject_Z start)).

(** [start] of the year at index [i]: the year's own start at [i = 0],
    the end of [years[i - 1]] after that.  The keys come from
    [Object.keys], so both lookups are defined. *)
Definition yoyStart (m : gmap string (Z * Z)) (prevY : option string) (y : string) : Z :=
  match prevY with
  | Some py => (m !!! py).2
  | None => (m !!! y).1
  end.

(** The loop over [years], where [prevY] is [years[i - 1]]. *)
Fixpoint yoyLoop (m : gmap string (Z * Z)) (prevY : option string)
    (years : list string) : list YearlyReturn :=
  match years with
  | [] => []
  | y :: rest =>
      let start := yoyStart m prevY y in
      let end_ := (m !!! y).2 in
      let ret := yoyRet start end_ in
      mkYearlyReturn y (option_map (toFixed 1) ret) :: yoyLoop m (Some y) rest
  end.

Definition calculateYoY (series : list EquityPoint) : list YearlyReturn :=
  let yearsMap := yearsMap_of series in
  yoyLoop yearsMap None (sorted_years yearsMap).

(** ** Results *)

(** The summary passed to [setStats].  Of [cagr], which is
    [(Math.pow(finalEq / initialCapital, 1 / years) - 1) * 100], the record
    keeps the base of the power, [cagr_base]: the exponent goes through
    [Date] parsing and a power with a real exponent has no exact rational
    counterpart. *)
Record Stats := mkStats {
  st_initialCapital : Q;
  finalCapital : Z;
  totalReturn : option Q;
  cagr_base : option Q;
  avgAnnualRet : option Q;
  maxDD : Z;
  maxLots : Q
}.

(** What one run hands to the five state setters. *)
Record Results := mkResults {
  stats : Stats;
  equityCurve : list EquityPoint;
  drawdownCurve : list DrawdownPoint;
  yearlyReturns : list YearlyReturn;
  tradeLog : list Trade
}.

(** [yoy.reduce((acc, curr) => acc + parseFloat(curr.return), 0)] *)
Definition sumReturns (yoy : list YearlyReturn) : option Q :=
  fold_left (fun acc curr =>
               match acc, yr_return curr with
               | Some a, Some r => Some (a + parseFloat 1 r)
               | _, _ => None
               end) yoy (Some 0).

(** [Math.max(...xs)] on a non-empty array. *)
Definition Math_max_Z (x : Z) (xs : list Z) : Z := fold_left Z.max xs x.
Definition Math_max_Q (x : Q) (xs : list Q) : Q := fold_left Qmax xs x.

Definition finalStats (config : Config) (initCap : Q) (st : State) : option Results :=
  match equitySeries st with
  | e0 :: es =>
      let finalEq := ep_equity (default e0 (last es)) in
      let totalRet :=
        option_map (fun r => r * 100) (jsdiv (inject_Z finalEq - initCap) initCap) in
      let cagrBase := jsdiv (inject_Z finalEq) initCap in
      let yoy := calculateYoY (equitySeries st) in
      let avg :=
        match sumReturns yoy with
        | Some s => jsdiv s (inject_Z (Z.of_nat (length yoy)))
        | None => None
        end in
      Some (mkResults
              (mkStats initCap finalEq totalRet cagrBase avg
                       (Math_max_Z (ep_drawdown e0) (map ep_drawdown es))
                       (Math_max_Q (ep_lots e0) (map ep_lots es)))
              (equitySeries st) (drawdownSeries st) yoy (rev (trades st)))
  | [] => None
  end.

(** [runBacktest]: [None] is the early [return], on which no setter is
    called; a [null] [fullData] takes the same exit as the empty array. *)
Definition runBacktest (config : Config) (fullData : list Observation) : option Results :=
  match fullData with
  | [] => None
  | _ =>
      match filterData config fullData with
      | [] | [_] => None
      | (d0 :: _) as data =>
          let st := loop config None data (initState config d0) in
          finalStats config (initialCapital config d0) st
      end
  end.

(** ** Example inputs *)

(** The three-day scenario of the specification. *)
Module Scenario.

Definition obs (d : string) (pn pf : Q) (e : string) : Observation :=
  mkObservation d 0 pn pf e "Z" None None.

Definition cfg : Config :=
  mkConfig "2020-01-01" "2020-12-31" 1 10 50 200 true false.

Definition series : list Observation :=
  [ obs "2020-01-01" 100 101 "A";
    obs "2020-01-02" 102 103 "A";
    obs "2020-01-03" 102 104 "B" ].

End Scenario.

(** A series whose near label changes thirty days after the recorded
    expiry date of the previous near contract. *)
Module Stale.

Definition cfg : Config :=
  mkConfig "2014-01-01" "2014-12-31" 1 10 50 200 true false.

Definition series : list Observation :=
  [ mkObservation "2014-02-04" 0 100 101 "05Feb2014" "05Apr2014"
                  (Some "2014-02-05") (Some "2014-04-05");
    mkObservation "2014-03-07" 0 102 104 "05Apr2014" "05Jun2014"
                  (Some "2014-04-05") (Some "2014-06-05") ].

End Stale.

(** A day with both a rollover and a compounding event. *)
Module BothEvents.

Definition cfg : Config :=
  mkConfig "2020-01-01" "2020-12-31" 1 10 50 10 true false.

Definition series : list Observation :=
  [ Scenario.obs "2020-01-01" 100 101 "A";
    Scenario.obs "2020-01-02" 120 121 "B" ].

End BothEvents.

(** A run in which the lots double once. *)
Module Doubling.

Definition cfg : Config :=
  mkConfig "2020-01-01" "2020-12-31" 1 10 50 200 true false.

Definition series : list Observation :=
  [ Scenario.obs "2020-01-01" 100 101 "A";
    Scenario.obs "2020-01-02" 120 121 "A";
    Scenario.obs "2020-01-03" 121 122 "A" ].

End Doubling.

(** A fall of the near price from 100 to 80 on a 10 percent margin. *)
Module Crash.

Definition cfg : Config :=
  mkConfig "2020-01-01" "2020-12-31" 1 10 50 200 true false.

Definition series : list Observation :=
  [ Scenario.obs "2020-01-01" 100 101 "A";
    Scenario.obs "2020-01-02" 80 81 "A" ].

End Crash.

(** A configuration whose compounding threshold is 0 percent. *)
Module ZeroFactor.

Definition cfg : Config :=
  mkConfig "2020-01-01" "2020-12-31" 1 10 50 0 true false.

Definition series : list Observation :=
  [ Scenario.obs "2020-01-01" 100 101 "A";
    Scenario.obs "2020-01-02" 100 101 "A" ].

End ZeroFactor.

(** Equity below zero at the end of a year. *)
Module NegativeStart.

Definition cfg : Config :=
  mkConfig "2020-01-01" "2021-12-31" 1 10 50 200 true false.

Definition series : list Observation :=
  [ Scenario.obs "2020-12-30" 100 101 "A";
    Scenario.obs "2020-12-31" 80 81 "A";
    Scenario.obs "2021-01-04" 85 86 "A" ].

End NegativeStart.

(** Equity of exactly zero at the end of a year. *)
Module ZeroStart.

Definition cfg : Config :=
  mkConfig "2020-01-01" "2021-12-31" 1 10 50 200 true false.

Definition series : list Observation :=
  [ Scenario.obs "2020-12-30" 100 101 "A";
    Scenario.obs "2020-12-31" 90 91 "A";
    Scenario.obs "2021-01-04" 95 96 "A" ].

End ZeroStart.

(** A margin of zero percent: the initial capital is zero. *)
Module ZeroCapital.

Definition cfg : Config :=
  mkConfig "2020-01-01" "2020-12-31" 1 0 50 200 false true.

Definition series : list Observation :=
  [ Scenario.obs "2020-01-01" 100 101 "A";
    Scenario.obs "2020-01-02" 101 102 "A" ].

End ZeroCapital.

(** ** Definitions used to state the properties *)

(** Ledger entries compared field by field, numbers up to [==]. *)
Inductive Trade_equiv : Trade -> Trade -> Prop :=
| TE_rollover d c s b l g k n e s' b' l' g' k' n' e' :
    s == s' -> b == b' -> l == l' -> g == g' -> k == k' -> n == n' -> e == e' ->
    Trade_equiv (Rollover d c s b l g k n e) (Rollover d c s' b' l' g' k' n' e')
| TE_compounding d c l e nt l' e' :
    l == l' -> e == e' ->
    Trade_equiv (Compounding d c l e nt) (Compounding d c l' e' nt).

(** Two observations that agree on every field but the two expiry dates. *)
Definition same_but_expiry_dates (a b : Observation) : Prop :=
  date a = date b /\ premium a = premium b /\
  price_near a = price_near b /\ price_far a = price_far b /\
  expiry_near a = expiry_near b /\ expiry_far a = expiry_far b.

(** The threshold test of the compounding check, as a proposition. *)
Definition compounding_condition (config : Config) (eq : Q) (st : State) : Prop :=
  isCompounding config = true /\ neverCompound config = false /\
  (compoundingFactor config / 100) * baselineCapital st <= eq - baselineCapital st.

(** Both compounding flags allow the check. *)
Definition compounding_enabled (config : Config) : bool :=
  negb (neverCompound config) && isCompounding config.

(** A relation that holds between every two consecutive elements. *)
Definition adjacent {A : Type} (R : A -> A -> Prop) (l : list A) : Prop :=
  forall (i : nat) (x y : A), l !! i = Some x -> l !! S i = Some y -> R x y.

(** The lot size either stays or doubles from one equity point to the next. *)
Definition lots_step (p q : EquityPoint) : Prop :=
  ep_lots q = ep_lots p \/ ep_lots q = ep_lots p * 2.

(** The loop invariants behind the lot-size properties: the curve so far
    moves by [lots_step] and its last point shows the current lots; no lot
    size is negative. *)
Definition lots_inv (st : State) : Prop :=
  adjacent lots_step (equitySeries st) /\
  (forall p, last (equitySeries st) = Some p -> ep_lots p = currentLots st).

Definition lots_nonneg (st : State) : Prop :=
  0 <= currentLots st /\ Forall (fun p => 0 <= ep_lots p) (equitySeries st).

(** The log of a loop: for every day, the day, the mark-to-market equity
    computed on it (after the rollover check), and the state at the end of
    the iteration. *)
Fixpoint dayLog (config : Config) (prev : option Observation)
    (data : list Observation) (st : State) : list (Observation * Q * State) :=
  match data with
  | [] => []
  | d :: rest =>
      let st' := step config prev d st in
      (d, currentEquity d (checkRollover config prev d st), st')
        :: dayLog config (Some d) rest st'
  end.

(** The equity point pushed at the end of a logged day. *)
Definition point_of (e : Observation * Q * State) : EquityPoint :=
  let '(d, eq, st') := e in
  mkEquityPoint (date d) (Math_round eq) (currentLots st')
                (toFixed 2 (drawdown (peakEquity st') eq)).

(** The log of a whole run. *)
Definition runLog (config : Config) (fullData : list Observation)
  : list (Observation * Q * State) :=
  match filterData config fullData with
  | [] => []
  | d0 :: rest => dayLog config None (d0 :: rest) (initState config d0)
  end.

(** The running maximum of a sequence, started at [m]. *)
Fixpoint running_max (m : Q) (l : list Q) : list Q :=
  match l with
  | [] => []
  | e :: r => Qmax m e :: running_max (Qmax m e) r
  end.

(** The calendar year of an equity point, as [calculateYoY] reads it. *)
Definition point_year (d : EquityPoint) : string := year_of (ep_date d).

(** The points of the series that fall in year [y], in series order. *)
Definition year_points (y : string) (series : list EquityPoint) : list EquityPoint :=
  filter (fun d => point_year d = y) series.



(** The year, [start] and [end] of each iteration of the loop over
    [years]: the values [yoyLoop] computes before it prints the return. *)
Fixpoint yoyRows (m : gmap string (Z * Z)) (prevY : option string)
    (years : list string) : list (string * Z * Z) :=
  match years with
  | [] => []
  | y :: rest => (y, yoyStart m prevY y, (m !!! y).2) :: yoyRows m (Some y) rest
  end.

(** The record pushed for a row: [{ year: y, return: ret.toFixed(1) }]. *)
Definition render_row (row : string * Z * Z) : YearlyReturn :=
  let '(y, start, end_) := row in
  mkYearlyReturn y (toFixed 1 <$> yoyRet start end_).

(** The rows of [calculateYoY]. *)
Definition yearRows (series : list EquityPoint) : list (string * Z * Z) :=
  yoyRows (yearsMap_of series) None (sorted_years (yearsMap_of series)).




(** ** The rest of the panel: handlers and displayed values *)

(** The [onChange] handler of the "Never Compound" checkbox:
    [setConfig({ ...config, neverCompound: checked, isCompounding: !checked })]. *)
Definition onNeverCompoundChange (checked : bool) (config : Config) : Config :=
  mkConfig (startDate config) (endDate config) (initialLots config)
           (initialMarginPercent config) (transactionCost config)
           (compoundingFactor config) (negb checked) checked.

(** [parserSigned], applied to the [return] string of a yearly return:
    [v = parseFloat(val); v > 0 ? `+${v.toFixed(1)}` : v.toFixed(1)].  The
    result is the sign prefix and the one-decimal string, in tenths; [None]
    stands for the strings of a non-finite return, as in [yr_return]. *)
Definition parserSigned (val : option Z) : option (string * Z) :=
  match val with
  | Some n =>
      let v := parseFloat 1 n in
      Some (if Qlt_le_dec 0 v then "+" else "", toFixed 1 v)
  | None => None
  end.

(** The "Current Lots" badge: [equityCurve[equityCurve.length - 1]?.lots]. *)
Definition currentLotsShown (equityCurve : list EquityPoint) : option Q :=
  ep_lots <$> last equityCurve.

(** ** The premium chart: contract names in the tooltip
    ([PremiumChart.jsx]) *)

(** [s.substring(a, b)] for [a <= b]; both clamp at the end of [s]. *)
Definition js_substring (a b : nat) (s : string) : string :=
  String.substring a (b - a) s.

(** A string is truthy when it is not empty. *)
Definition truthy (s : string) : bool := negb (String.eqb s "").

(** The label of the [price_near] entry of the tooltip, from
    [props?.payload?.expiry_near] ([None] when it is missing). *)
Definition contractLabel (exp : option string) : string :=
  match exp with
  | Some e =>
      if truthy e && (9 <=? String.length e)%nat then
        let mmm := js_substring 2 5 e in
        let yy := js_substring 7 9 e in
        "GOLD" ++ mmm ++ yy ++ "FUT"
      else "Gold Price"
  | None => "Gold Price"
  end.

(** [formatExp] of the tooltip's label formatter. *)
Definition formatExp (expStr : option string) : option string :=
  match expStr with
  | Some e =>
      if negb (truthy e) || (String.length e <? 9)%nat then Some e
      else Some (js_substring 2 5 e ++ " '" ++ js_substring 7 9 e)
  | None => None
  end.

(** ** Definitions used to state further properties *)

(** The number of days whose near label differs from the day before. *)
Fixpoint label_changes (prev : option Observation) (data : list Observation) : nat :=
  match data with
  | [] => 0
  | d :: rest =>
      (match prev with
       | Some p => if String.eqb (expiry_near d) (expiry_near p) then 0 else 1
       | None => 0
       end + label_changes (Some d) rest)%nat
  end.

(** The entries of a ledger of one type. *)
Definition count_type (ty : string) (l : list Trade) : nat :=
  length (filter (fun t => trade_type t = ty) l).

(** The netPnL a ledger entry realizes: that of a Rollover, nothing for a
    Compounding entry. *)
Definition realized (t : Trade) : Q :=
  match t with
  | Rollover _ _ _ _ _ _ _ n _ => n
  | Compounding _ _ _ _ _ => 0
  end.

Definition total_realized (l : list Trade) : Q :=
  fold_right (fun t acc => realized t + acc) 0 l.

(** The drawdown point pushed together with an equity point. *)
Definition drawdown_point_of (p : EquityPoint) : DrawdownPoint :=
  mkDrawdownPoint (ep_date p) (ep_drawdown p).

(** A string without a dash. *)
Fixpoint no_dash (s : string) : bool :=
  match s with
  | EmptyString => true
  | String c r => negb (Ascii.eqb c "-"%char) && no_dash r
  end.

(** The loop invariant of the two curves: the drawdown series repeats the
    equity series. *)
Definition curves_aligned (st : State) : Prop :=
  drawdownSeries st = map drawdown_point_of (equitySeries st).

(** The loop invariant of a run with compounding switched off. *)
Definition no_compounding_inv (config : Config) (st : State) : Prop :=
  currentLots st = initialLots config /\
  Forall (fun p => ep_lots p = initialLots config) (equitySeries st) /\
  count_type "Compounding" (trades st) = 0%nat.

(** The loop invariant of the lots: initialLots, doubled once per
    Compounding entry of the ledger. *)
Definition lots_power_inv (config : Config) (st : State) : Prop :=
  currentLots st ==
  initialLots config * inject_Z (2 ^ Z.of_nat (count_type "Compounding" (trades st))).

(** The [equity] field of a ledger entry. *)
Definition snapshot (t : Trade) : Q :=
  match t with
  | Rollover _ _ _ _ _ _ _ _ e => e
  | Compounding _ _ _ e _ => e
  end.

(** Cash [c] and a ledger [l] in chronological order agree, from a starting
    capital [c0]: cash is the capital plus everything realized, and every
    Rollover entry shows the capital plus what was realized up to it. *)
Definition ledger_ok (c0 c : Q) (l : list Trade) : Prop :=
  c == c0 + total_realized l /\
  forall (i : nat) t, l !! i = Some t -> trade_type t = "Rollover" ->
                      snapshot t == c0 + total_realized (take (S i) l).

(** The sum of the printed yearly returns. *)
Definition printed_sum (yoy : list YearlyReturn) : Q :=
  fold_left (fun acc y => acc + parseFloat 1 (default 0%Z (yr_return y))) yoy 0.

(** ** The state machine of the loop in binary64 *)

Module B64.

Local Open Scope float_scope.

(** One record of [fullData], its numbers as JSON parsing yields them. *)
Record Observation := mkObservation {
  date : string;
  premium : float;
  price_near : float;
  price_far : float;
  expiry_near : string;
  expiry_far : string;
  expiry_near_date : option string;
  expiry_far_date : option string
}.

(** The [config] state of the panel. *)
Record Config := mkConfig {
  startDate : string;
  endDate : string;
  initialLots : float;
  initialMarginPercent : float;
  transactionCost : float;
  compoundingFactor : float;
  isCompounding : bool;
  neverCompound : bool
}.

(** The two object shapes pushed on [trades]. *)
Inductive Trade :=
| Rollover (t_date contracts : string)
           (sellPrice buyPrice lots grossPnL cost netPnL equity : float)
| Compounding (t_date contracts : string) (lots equity : float) (note : string).

Definition trade_date (t : Trade) : string :=
  match t with
  | Rollover d _ _ _ _ _ _ _ _ => d
  | Compounding d _ _ _ _ => d
  end.

Definition trade_prices (t : Trade) : option (float * float) :=
  match t with
  | Rollover _ _ s b _ _ _ _ _ => Some (s, b)
  | Compounding _ _ _ _ _ => None
  end.

Definition is_compounding (t : Trade) : bool :=
  match t with
  | Rollover _ _ _ _ _ _ _ _ _ => false
  | Compounding _ _ _ _ _ => true
  end.

(** The mutable numbers of [runBacktest] and the ledger.  The equity and
    drawdown series are not part of this state: an iteration only pushes
    printed values on them ([Math.round], [toFixed]) and never reads them
    back. *)
Record State := mkState {
  currentLots : float;
  cash : float;
  entryPrice : float;
  baselineCapital : float;
  peakEquity : float;
  trades : list Trade
}.

Definition CONTRACT_MULTIPLIER : float := 100.

Section Engine.

Variable config : Config.

(** [fullData.filter(d => d.date >= config.startDate && d.date <= config.endDate)] *)
Definition in_window (d : Observation) : bool :=
  String.leb (startDate config) (date d) && String.leb (date d) (endDate config).

Definition filterData (fullData : list Observation) : list Observation :=
  List.filter in_window fullData.

(** The rollover check and its body. *)
Definition checkRollover (prev : option Observation) (today : Observation)
    (st : State) : State :=
  match prev with
  | Some p =>
      if negb (String.eqb (expiry_near today) (expiry_near p)) then
        let sellPrice := price_near p in
        let buyPrice := price_far p in
        let rawPnL := (sellPrice - entryPrice st) * CONTRACT_MULTIPLIER * currentLots st in
        let cost := transactionCost config * currentLots st in
        let netPnL := rawPnL - cost in
        let cash' := cash st + netPnL in
        mkState (currentLots st) cash' buyPrice (baselineCapital st) (peakEquity st)
                (trades st ++
                   [Rollover (date today)
                             (expiry_near p ++ " → " ++ expiry_near today)%string
                             sellPrice buyPrice (currentLots st) rawPnL cost netPnL
                             cash'])%list
      else st
  | None => st
  end.

(** Mark to market. *)
Definition currentEquity (today : Observation) (st : State) : float :=
  let unrealized := (price_near today - entryPrice st) * CONTRACT_MULTIPLIER * currentLots st in
  cash st + unrealized.

(** [currentEquity - baselineCapital >= (config.compoundingFactor / 100) * baselineCapital],
    each operation rounded to binary64. *)
Definition threshold_met (eq : float) (st : State) : bool :=
  (compoundingFactor config / 100 * baselineCapital st <=? eq - baselineCapital st).

(** The condition of the two compounding [if]s. *)
Definition compounding_due (eq : float) (st : State) : bool :=
  negb (neverCompound config) && isCompounding config && threshold_met eq st.

Definition checkCompounding (today : Observation) (eq : float) (st : State) : State :=
  if compounding_due eq st then
    let lots' := currentLots st * 2 in
    mkState lots' (cash st) (entryPrice st) eq (peakEquity st)
            (trades st ++
               [Compounding (date today) "Position Doubled" lots' eq
                            "Profit Target Hit"])%list
  else st.

(** [if (currentEquity > peakEquity) peakEquity = currentEquity] *)
Definition trackPeak (eq : float) (st : State) : State :=
  mkState (currentLots st) (cash st) (entryPrice st) (baselineCapital st)
          (if peakEquity st <? eq then eq else peakEquity st) (trades st).

(** One iteration of the [for] loop. *)
Definition step (prev : option Observation) (today : Observation) (st : State) : State :=
  let st1 := checkRollover prev today st in
  let eq := currentEquity today st1 in
  let st2 := checkCompounding today eq st1 in
  trackPeak eq st2.

(** The loop, where [prev] is [data[i - 1]] and is [null] at [i = 0]. *)
Fixpoint loop (prev : option Observation) (data : list Observation) (st : State) : State :=
  match data with
  | [] => st
  | today :: rest => loop (Some today) rest (step prev today st)
  end.

(** The initial setup, from [data[0]]. *)
Definition initialCapital (d0 : Observation) : float :=
  let startPrice := price_near d0 in
  let contractValue := startPrice * CONTRACT_MULTIPLIER * initialLots config in
  contractValue * (initialMarginPercent config / 100).

Definition initState (d0 : Observation) : State :=
  mkState (initialLots config) (initialCapital d0) (price_near d0)
          (initialCapital d0) (initialCapital d0) [].

(** The state at the end of the loop of [runBacktest]; [None] on the early
    [return]s. *)
Definition runState (fullData : list Observation) : option State :=
  match fullData with
  | [] => None
  | _ =>
      match filterData fullData with
      | [] | [_] => None
      | (d0 :: _) as data => Some (loop None data (initState d0))
      end
  end.

(** For every day of a loop: the previous day, the day, and the state the
    iteration starts from. *)
Fixpoint dayInputs (prev : option Observation) (data : list Observation)
    (st : State) : list (option Observation * Observation * State) :=
  match data with
  | [] => []
  | d :: rest => (prev, d, st) :: dayInputs (Some d) rest (step prev d st)
  end.

(** Whether the compounding check of a day fires: the test, on the state
    the rollover check leaves and the equity marked on it. *)
Definition fires (x : option Observation * Observation * State) : bool :=
  let '(prev, d, st) := x in
  let st1 := checkRollover prev d st in
  compounding_due (currentEquity d st1) st1.

(** The ledger entry of a day whose check fires. *)
Definition entry_of (x : option Observation * Observation * State) : Trade :=
  let '(prev, d, st) := x in
  let st1 := checkRollover prev d st in
  Compounding (date d) "Position Doubled" (currentLots st * 2)
              (currentEquity d st1) "Profit Target Hit".

End Engine.

(** [x] doubled [n] times. *)
Fixpoint doubled (n : nat) (x : float) : float :=
  match n with
  | O => x
  | S k => doubled k (x * 2)
  end.

(** A threshold of 7 percent on a capital of 10000: near prices 1000 and
    1007 on a 10 percent margin give equity 10000 and 10700. *)
Definition boundary_cfg : Config :=
  mkConfig "2020-01-01" "2020-12-31" 1 10 50 7 true false.

Definition boundary_series : list Observation :=
  [ mkObservation "2020-01-01" 0 1000 1001 "A" "Z" None None;
    mkObservation "2020-01-02" 0 1007 1008 "A" "Z" None None ].

(** A threshold of 200 percent on a capital of 1000: near prices 100 and
    120 give equity 1000 and 3000. *)
Definition doubling_cfg : Config :=
  mkConfig "2020-01-01" "2020-12-31" 1 10 50 200 true false.

Definition doubling_series : list Observation :=
  [ mkObservation "2020-01-01" 0 100 101 "A" "Z" None None;
    mkObservation "2020-01-02" 0 120 121 "A" "Z" None None;
    mkObservation "2020-01-03" 0 121 122 "A" "Z" None None ].

End B64.

(** The same boundary in the exact model. *)
Module Boundary.

Definition cfg : Config :=
  mkConfig "2020-01-01" "2020-12-31" 1 10 50 7 true false.

Definition series : list Observation :=
  [ Scenario.obs "2020-01-01" 1000 1001 "A";
    Scenario.obs "2020-01-02" 1007 1008 "A" ].

End Boundary.

(** A negative number of lots, which the number field accepts. *)
Module NegativeLots.

Definition cfg : Config :=
  mkConfig "2020-01-01" "2020-12-31" (-1) 10 50 200 true false.

Definition series : list Observation :=
  [ Scenario.obs "2020-01-01" 100 101 "A";
    Scenario.obs "2020-01-02" 100 101 "A";
    Scenario.obs "2020-01-03" 100 101 "A" ].

End NegativeLots.

(** ** Basic facts about one day and about the loop *)

Section StepFacts.

Variable config : Config.

Lemma checkRollover_change p d st :
  expiry_near d <> expiry_near p ->
  checkRollover config (Some p) d st = doRollover config p d st.
Proof.
  intros Hne. unfold checkRollover.
  apply String.eqb_neq in Hne. now rewrite Hne.
Qed.

Lemma checkRollover_lots prev d st :
  currentLots (checkRollover config prev d st) = currentLots st.
Proof.
  destruct prev as [p|]; simpl; [|reflexivity].
  destruct (negb _); reflexivity.
Qed.

Lemma checkRollover_baseline prev d st :
  baselineCapital (checkRollover config prev d st) = baselineCapital st.
Proof.
  destruct prev as [p|]; simpl; [|reflexivity].
  destruct (negb _); reflexivity.
Qed.

Lemma checkRollover_peak prev d st :
  peakEquity (checkRollover config prev d st) = peakEquity st.
Proof.
  destruct prev as [p|]; simpl; [|reflexivity].
  destruct (negb _); reflexivity.
Qed.

Lemma checkRollover_series prev d st :
  equitySeries (checkRollover config prev d st) = equitySeries st.
Proof.
  destruct prev as [p|]; simpl; [|reflexivity].
  destruct (negb _); reflexivity.
Qed.

Lemma checkCompounding_cash d eq st :
  cash (checkCompounding config d eq st) = cash st.
Proof. unfold checkCompounding. destruct (compounding_due _ _ _); reflexivity. Qed.

Lemma checkCompounding_entry d eq st :
  entryPrice (checkCompounding config d eq st) = entryPrice st.
Proof. unfold checkCompounding. destruct (compounding_due _ _ _); reflexivity. Qed.

Lemma checkCompounding_peak d eq st :
  peakEquity (checkCompounding config d eq st) = peakEquity st.
Proof. unfold checkCompounding. destruct (compounding_due _ _ _); reflexivity. Qed.

Lemma checkCompounding_series d eq st :
  equitySeries (checkCompounding config d eq st) = equitySeries st.
Proof. unfold checkCompounding. destruct (compounding_due _ _ _); reflexivity. Qed.

Lemma step_cash prev d st :
  cash (step config prev d st) = cash (checkRollover config prev d st).
Proof. unfold step. simpl. apply checkCompounding_cash. Qed.

Lemma step_entry prev d st :
  entryPrice (step config prev d st) = entryPrice (checkRollover config prev d st).
Proof. unfold step. simpl. apply checkCompounding_entry. Qed.

Lemma step_trades prev d st :
  trades (step config prev d st) =
  trades (checkCompounding config d
            (currentEquity d (checkRollover config prev d st))
            (checkRollover config prev d st)).
Proof. reflexivity. Qed.

End StepFacts.

(** ** Rollover detection and the expiry date (C1) *)

(** The rollover check never reads [expiry_near_date]: days that differ in
    the expiry dates alone are treated alike. *)
Lemma checkRollover_ignores_expiry_date config p p' d d' st :
  same_but_expiry_dates p p' -> same_but_expiry_dates d d' ->
  checkRollover config (Some p) d st = checkRollover config (Some p') d' st.
Proof.
  intros (_ & _ & Hn & Hf & He & _) (Hd & _ & _ & _ & He' & _).
  unfold checkRollover, doRollover. rewrite Hn, Hf, He, Hd, He'. reflexivity.
Qed.

(** C1, evaluated on the code: in the series [Stale.series] the near label
    changes on 2014-03-07, thirty days after the previous near contract's
    recorded expiry date 2014-02-05, and the run records a Rollover trade
    dated 2014-03-07, closed at the stale price 100 and re-opened at 101. *)
Theorem C1_stale_rollover_is_executed :
  expiry_near_date <$> (Stale.series !! 0%nat) = Some (Some "2014-02-05") /\
  String.ltb "2014-02-05" "2014-03-07" = true /\
  exists r,
    runBacktest Stale.cfg Stale.series = Some r /\
    Forall2 Trade_equiv (tradeLog r)
      [Rollover "2014-03-07" "05Feb2014 → 05Apr2014" 100 101 1 0 50 (-50) 950].
Proof.
  split; [reflexivity|]. split; [reflexivity|].
  eexists. split; [vm_compute; reflexivity|].
  repeat constructor; reflexivity.
Qed.

(** ** Rollover accounting (C2) *)

(** C2: a day whose near label differs from the previous day's closes the
    position at [prev.price_near] and re-opens it at [prev.price_far]:
    the ledger gains a Rollover entry with
    grossPnL = (prev.price_near - entryPrice) * CONTRACT_MULTIPLIER * currentLots,
    cost = transactionCost * currentLots and netPnL = grossPnL - cost; cash
    grows by netPnL and entryPrice becomes prev.price_far.  On the
    three-day scenario the equity curve is 1000, 1200, 1050, the rollover of
    day 3 has grossPnL 200, cost 50, netPnL 150 and leaves cash 1150 and
    entryPrice 103. *)
Theorem C2_rollover_accounting :
  (forall config p d st,
      expiry_near d <> expiry_near p ->
      let grossPnL := (price_near p - entryPrice st) * CONTRACT_MULTIPLIER * currentLots st in
      let cost := transactionCost config * currentLots st in
      let netPnL := grossPnL - cost in
      let st1 := checkRollover config (Some p) d st in
      let st' := step config (Some p) d st in
      trades st1 =
        (trades st ++
           [Rollover (date d) (expiry_near p ++ " → " ++ expiry_near d)
                     (price_near p) (price_far p) (currentLots st)
                     grossPnL cost netPnL (cash st + netPnL)])%list /\
      (exists more, trades st' = (trades st1 ++ more)%list) /\
      cash st' = cash st + netPnL /\
      entryPrice st' = price_far p) /\
  CONTRACT_MULTIPLIER == 100 /\
  (let d0 := mkObservation "2020-01-01" 0 100 101 "A" "Z" None None in
   initialCapital Scenario.cfg d0 == 1000 /\
   let final := loop Scenario.cfg None Scenario.series (initState Scenario.cfg d0) in
   cash final == 1150 /\ entryPrice final == 103 /\
   map ep_equity (equitySeries final) = [1000; 1200; 1050]%Z /\
   Forall2 Trade_equiv (trades final)
     [Rollover "2020-01-03" "A → B" 102 103 1 200 50 150 1150] /\
   exists r,
     runBacktest Scenario.cfg Scenario.series = Some r /\
     equityCurve r = equitySeries final /\
     finalCapital (stats r) = 1050%Z).
Proof.
  split; [|split; [reflexivity|]].
  - intros config p d st Hne. cbv zeta.
    rewrite step_cash, step_entry, step_trades.
    rewrite (checkRollover_change _ _ _ _ Hne).
    split; [reflexivity|]. split; [|split; reflexivity].
    unfold checkCompounding.
    destruct (compounding_due _ _ _).
    + eexists. reflexivity.
    + exists []. now rewrite app_nil_r.
  - cbv zeta. split; [reflexivity|]. split; [reflexivity|].
    split; [reflexivity|]. split; [vm_compute; reflexivity|].
    split; [repeat constructor; reflexivity|].
    eexists. split; [vm_compute; reflexivity|]. split; vm_compute; reflexivity.
Qed.

(** The rollover accounting at the third day of the scenario. *)
Lemma C2_rollover_accounting_witness :
  let p := Scenario.obs "2020-01-02" 102 103 "A" in
  let d := Scenario.obs "2020-01-03" 102 104 "B" in
  let st := mkState 1 1000 100 1000 1200 [] [] [] in
  expiry_near d <> expiry_near p /\
  cash (step Scenario.cfg (Some p) d st) = 1000 + ((102 - 100) * CONTRACT_MULTIPLIER * 1 - 50 * 1) /\
  entryPrice (step Scenario.cfg (Some p) d st) = 103.
Proof.
  cbv zeta.
  assert (Hne : expiry_near (Scenario.obs "2020-01-03" 102 104 "B") <>
                expiry_near (Scenario.obs "2020-01-02" 102 103 "A")) by discriminate.
  split; [exact Hne|].
  destruct C2_rollover_accounting as [H _].
  specialize (H Scenario.cfg _ _ (mkState 1 1000 100 1000 1200 [] [] []) Hne).
  cbv zeta in H. destruct H as (_ & _ & Hc & He).
  split; [exact Hc | exact He].
Defined.

(** ** The compounding check (C3) *)

Lemma compounding_due_iff config eq st :
  compounding_due config eq st = true <-> compounding_condition config eq st.
Proof.
  unfold compounding_due, compounding_condition.
  rewrite !andb_true_iff, negb_true_iff, Qle_bool_iff. tauto.
Qed.

Lemma compounding_due_false_iff config eq st :
  compounding_due config eq st = false <-> ~ compounding_condition config eq st.
Proof.
  rewrite <- compounding_due_iff. destruct (compounding_due config eq st); split;
    congruence.
Qed.

(** *** The rule in binary64 *)

Section B64Facts.

Variable config : B64.Config.

Lemma B64_checkRollover_lots prev d st :
  B64.currentLots (B64.checkRollover config prev d st) = B64.currentLots st.
Proof.
  unfold B64.checkRollover. destruct prev as [p|]; [|reflexivity].
  destruct (negb _); reflexivity.
Qed.

Lemma B64_checkRollover_baseline prev d st :
  B64.baselineCapital (B64.checkRollover config prev d st) = B64.baselineCapital st.
Proof.
  unfold B64.checkRollover. destruct prev as [p|]; [|reflexivity].
  destruct (negb _); reflexivity.
Qed.

Lemma B64_checkRollover_compounding prev d st :
  List.filter B64.is_compounding (B64.trades (B64.checkRollover config prev d st)) =
  List.filter B64.is_compounding (B64.trades st).
Proof.
  unfold B64.checkRollover. destruct prev as [p|]; [|reflexivity].
  destruct (negb _); [|reflexivity].
  cbn [B64.trades]. rewrite List.filter_app. cbn. apply app_nil_r.
Qed.

(** What one iteration does to the lots and to the Compounding entries. *)
Lemma B64_step_compounding prev d st :
  List.filter B64.is_compounding (B64.trades (B64.step config prev d st)) =
    (List.filter B64.is_compounding (B64.trades st) ++
     if B64.fires config (prev, d, st) then [B64.entry_of config (prev, d, st)] else [])%list /\
  B64.currentLots (B64.step config prev d st) =
    if B64.fires config (prev, d, st)
    then PrimFloat.mul (B64.currentLots st) 2 else B64.currentLots st.
Proof.
  unfold B64.step, B64.trackPeak, B64.checkCompounding, B64.fires, B64.entry_of.
  cbn [B64.trades B64.currentLots].
  destruct (B64.compounding_due config _ _); cbn [B64.trades B64.currentLots].
  - rewrite List.filter_app, B64_checkRollover_compounding, B64_checkRollover_lots.
    split; reflexivity.
  - rewrite B64_checkRollover_compounding, B64_checkRollover_lots, app_nil_r.
    split; reflexivity.
Qed.

Lemma B64_dayInputs_days prev data st :
  map (fun x => x.1.2) (B64.dayInputs config prev data st) = data.
Proof.
  revert prev st. induction data as [|d data IH]; intros prev st; simpl.
  - reflexivity.
  - rewrite IH. reflexivity.
Qed.

Lemma B64_dayInputs_chain prev data st (i : nat) p d s p' d' s' :
  B64.dayInputs config prev data st !! i = Some (p, d, s) ->
  B64.dayInputs config prev data st !! S i = Some (p', d', s') ->
  p' = Some d /\ s' = B64.step config p d s.
Proof.
  revert prev st i. induction data as [|d0 data IH]; intros prev st i Hi HS.
  - discriminate Hi.
  - destruct i as [|i].
    + simpl in Hi. injection Hi as <- <- <-.
      destruct data as [|d1 data]; [discriminate HS|].
      simpl in HS. injection HS as <- _ <-. split; reflexivity.
    + exact (IH (Some d0) (B64.step config prev d0 st) i Hi HS).
Qed.

Lemma B64_loop_compounding prev data st :
  let fired := List.filter (B64.fires config) (B64.dayInputs config prev data st) in
  List.filter B64.is_compounding (B64.trades (B64.loop config prev data st)) =
    (List.filter B64.is_compounding (B64.trades st) ++
     map (B64.entry_of config) fired)%list /\
  B64.currentLots (B64.loop config prev data st) =
    B64.doubled (length fired) (B64.currentLots st).
Proof.
  revert prev st. induction data as [|d data IH]; intros prev st.
  - cbn. rewrite app_nil_r. split; reflexivity.
  - destruct (IH (Some d) (B64.step config prev d st)) as [IH1 IH2].
    destruct (B64_step_compounding prev d st) as [H1 H2].
    cbn zeta in *. cbn [B64.loop B64.dayInputs List.filter].
    rewrite IH1, IH2, H1, H2.
    destruct (B64.fires config (prev, d, st)); cbn [map length B64.doubled].
    + rewrite <- app_assoc. split; reflexivity.
    + rewrite app_nil_r. split; reflexivity.
Qed.

End B64Facts.

(** In binary64 the threshold of 7 percent on 10000 evaluates to
    700.00000000000011, so equity 10700 over a baseline of 10000 does not
    fire, although 10700 - 10000 >= (7/100) * 10000 holds of the numbers:
    the run [B64.boundary_series] ends with one lot and an empty ledger,
    where exact arithmetic would double on the second day. *)
Lemma C3_boundary_not_fired_in_binary64 :
  (7 / 100) * 10000 <= 10700 - 10000 /\
  (exists r, runBacktest Boundary.cfg Boundary.series = Some r /\
             Forall2 Qeq (map ep_lots (equityCurve r)) [1; 2]) /\
  PrimFloat.ltb 700 (PrimFloat.mul (PrimFloat.div 7 100) 10000) = true /\
  PrimFloat.leb (PrimFloat.mul (PrimFloat.div 7 100) 10000)
                (PrimFloat.sub 10700 10000) = false /\
  exists st,
    B64.runState B64.boundary_cfg B64.boundary_series = Some st /\
    B64.baselineCapital st = 10000%float /\
    B64.peakEquity st = 10700%float /\
    B64.currentLots st = 1%float /\
    B64.trades st = [].
Proof.
  split; [vm_compute; discriminate|]. split.
  - eexists. split; [vm_compute; reflexivity|]. repeat constructor; reflexivity.
  - split; [vm_compute; reflexivity|]. split; [vm_compute; reflexivity|].
    eexists. split; [vm_compute; reflexivity|]. repeat split; reflexivity.
Qed.

(** C3, as the code has it.  On every day of the loop, with [st1] the
    state after the rollover check and [eq] the equity marked on it, the
    compounding event fires exactly when isCompounding is set,
    neverCompound is not, and the test
    eq - baselineCapital >= (compoundingFactor / 100) * baselineCapital
    holds as binary64 evaluates it, each operation rounded.  When it fires
    the lots are doubled, baselineCapital becomes [eq], and one Compounding
    entry dated that day, without price fields, is appended after the day's
    rollover entry; otherwise lots, baseline and ledger stay as the rollover
    check left them.  Over a whole loop the days follow the data one by
    one, each starting from the state the day before left; the Compounding
    entries added to the ledger are, in order, one for each day that fires
    and none for any other, and the lots end doubled once per such day.
    The loop of a run goes over the filtered days from the initial state.
    With baselineCapital 1000 and compoundingFactor 200 the threshold is
    2000: equity 3000 fires, the largest binary64 number below 3000 does
    not. *)
Theorem C3_compounding_rule :
  (forall config prev d st,
      let st1 := B64.checkRollover config prev d st in
      let eq := B64.currentEquity d st1 in
      let st' := B64.step config prev d st in
      let condition :=
        B64.isCompounding config = true /\ B64.neverCompound config = false /\
        PrimFloat.leb
          (PrimFloat.mul (PrimFloat.div (B64.compoundingFactor config) 100)
                         (B64.baselineCapital st1))
          (PrimFloat.sub eq (B64.baselineCapital st1)) = true in
      (condition ->
         exists t,
           B64.trades st' = (B64.trades st1 ++ [t])%list /\
           t = B64.Compounding (B64.date d) "Position Doubled"
                               (PrimFloat.mul (B64.currentLots st) 2) eq
                               "Profit Target Hit" /\
           B64.trade_prices t = None /\ B64.trade_date t = B64.date d /\
           B64.currentLots st' = PrimFloat.mul (B64.currentLots st) 2 /\
           B64.baselineCapital st' = eq) /\
      (~ condition ->
         B64.trades st' = B64.trades st1 /\
         B64.currentLots st' = B64.currentLots st /\
         B64.baselineCapital st' = B64.baselineCapital st) /\
      (B64.fires config (prev, d, st) = true <-> condition)) /\
  (forall config prev data st,
      let days := B64.dayInputs config prev data st in
      let fired := List.filter (B64.fires config) days in
      map (fun x => x.1.2) days = data /\
      head days = (fun d => (prev, d, st)) <$> head data /\
      (forall (i : nat) p d s p' d' s',
          days !! i = Some (p, d, s) -> days !! S i = Some (p', d', s') ->
          p' = Some d /\ s' = B64.step config p d s) /\
      List.filter B64.is_compounding (B64.trades (B64.loop config prev data st)) =
        (List.filter B64.is_compounding (B64.trades st) ++
         map (B64.entry_of config) fired)%list /\
      B64.currentLots (B64.loop config prev data st) =
        B64.doubled (length fired) (B64.currentLots st)) /\
  (forall config fullData d0 d1 rest,
      B64.filterData config fullData = d0 :: d1 :: rest ->
      B64.runState config fullData =
      Some (B64.loop config None (d0 :: d1 :: rest) (B64.initState config d0))) /\
  (forall config eq st,
      B64.compoundingFactor config = 200%float ->
      B64.baselineCapital st = 1000%float ->
      B64.threshold_met config eq st
      = PrimFloat.leb 2000 (PrimFloat.sub eq 1000)) /\
  PrimFloat.leb 2000 (PrimFloat.sub 3000 1000) = true /\
  PrimFloat.leb 2000 (PrimFloat.sub (PrimFloat.next_down 3000) 1000) = false.
Proof.
  split; [|split; [|split; [|split; [|split]]]].
  - intros config prev d st st1 eq st' condition.
    assert (Hiff : B64.compounding_due config eq st1 = true <-> condition).
    { unfold condition, B64.compounding_due, B64.threshold_met.
      rewrite !andb_true_iff, negb_true_iff. tauto. }
    assert (Hl : B64.currentLots st1 = B64.currentLots st)
      by apply B64_checkRollover_lots.
    assert (Hb : B64.baselineCapital st1 = B64.baselineCapital st)
      by apply B64_checkRollover_baseline.
    split; [|split].
    + intros Hc. apply Hiff in Hc. unfold st', B64.step, B64.trackPeak, B64.checkCompounding.
      fold st1. fold eq. rewrite Hc. cbn [B64.trades B64.currentLots B64.baselineCapital].
      rewrite Hl. eexists. repeat split; reflexivity.
    + intros Hc.
      assert (Hf : B64.compounding_due config eq st1 = false).
      { destruct (B64.compounding_due config eq st1); [|reflexivity].
        exfalso. apply Hc, Hiff. reflexivity. }
      unfold st', B64.step, B64.trackPeak, B64.checkCompounding.
      fold st1. fold eq. rewrite Hf. cbn [B64.trades B64.currentLots B64.baselineCapital].
      rewrite Hl, Hb. repeat split; reflexivity.
    + exact Hiff.
  - intros config prev data st days fired.
    split; [apply B64_dayInputs_days|].
    split; [destruct data; reflexivity|].
    split; [intros i p d s p' d' s'; apply B64_dayInputs_chain|].
    apply B64_loop_compounding.
  - intros config fullData d0 d1 rest Hf. unfold B64.runState. rewrite Hf.
    destruct fullData as [|x xs]; [discriminate Hf | reflexivity].
  - intros config eq st Hf Hb. unfold B64.threshold_met. rewrite Hf, Hb. reflexivity.
  - vm_compute. reflexivity.
  - vm_compute. reflexivity.
Qed.

(** The rule on [B64.doubling_series]: on the second day, equity 3000
    over a baseline of 1000 at 200 percent; over the run, one Compounding
    entry and two lots at the end. *)
Lemma C3_compounding_rule_witness :
  let d0 := B64.mkObservation "2020-01-01" 0 100 101 "A" "Z" None None in
  let d1 := B64.mkObservation "2020-01-02" 0 120 121 "A" "Z" None None in
  let st := B64.step B64.doubling_cfg None d0 (B64.initState B64.doubling_cfg d0) in
  let final := B64.loop B64.doubling_cfg None B64.doubling_series
                 (B64.initState B64.doubling_cfg d0) in
  B64.fires B64.doubling_cfg (Some d0, d1, st) = true /\
  B64.currentLots (B64.step B64.doubling_cfg (Some d0) d1 st)
  = PrimFloat.mul (B64.currentLots st) 2 /\
  B64.runState B64.doubling_cfg B64.doubling_series = Some final /\
  List.filter B64.is_compounding (B64.trades final) =
    [B64.Compounding "2020-01-02" "Position Doubled" 2 3000 "Profit Target Hit"] /\
  B64.currentLots final = 2%float.
Proof.
  cbv zeta.
  destruct C3_compounding_rule as (Hday & Hloop & Hrun & _).
  set (d0 := B64.mkObservation "2020-01-01" 0 100 101 "A" "Z" None None).
  set (d1 := B64.mkObservation "2020-01-02" 0 120 121 "A" "Z" None None).
  set (st := B64.step B64.doubling_cfg None d0 (B64.initState B64.doubling_cfg d0)).
  assert (Hf : B64.fires B64.doubling_cfg (Some d0, d1, st) = true)
    by (vm_compute; reflexivity).
  split; [exact Hf|]. split; [|split].
  - destruct (Hday B64.doubling_cfg (Some d0) d1 st) as (Hfire & _ & Hiff).
    destruct (Hfire (proj1 Hiff Hf)) as (t & _ & _ & _ & _ & Hl & _). exact Hl.
  - apply (Hrun B64.doubling_cfg B64.doubling_series d0 d1
             [B64.mkObservation "2020-01-03" 0 121 122 "A" "Z" None None]).
    reflexivity.
  - destruct (Hloop B64.doubling_cfg None B64.doubling_series
                (B64.initState B64.doubling_cfg d0)) as (_ & _ & _ & Ht & Hl).
    cbv zeta in Ht, Hl. rewrite Ht, Hl. split; vm_compute; reflexivity.
Defined.

(** ** Runs that produce output, and runs that do not (C5) *)

Section LoopFacts.

Variable config : Config.

Lemma step_equitySeries prev d st :
  exists pt,
    equitySeries (step config prev d st) = (equitySeries st ++ [pt])%list /\
    ep_date pt = date d.
Proof.
  unfold step, trackDrawdown. simpl.
  rewrite checkCompounding_series, checkRollover_series.
  eexists. split; reflexivity.
Qed.

Lemma loop_equitySeries_length prev data st :
  length (equitySeries (loop config prev data st)) =
  (length (equitySeries st) + length data)%nat.
Proof.
  revert prev st. induction data as [|d data IH]; intros prev st; simpl.
  - lia.
  - rewrite IH. destruct (step_equitySeries prev d st) as (pt & -> & _).
    rewrite length_app. simpl. lia.
Qed.

End LoopFacts.

Lemma finalStats_some config initCap st :
  equitySeries st <> [] ->
  exists r, finalStats config initCap st = Some r /\
            equityCurve r = equitySeries st /\
            drawdownCurve r = drawdownSeries st /\
            yearlyReturns r = calculateYoY (equitySeries st) /\
            tradeLog r = rev (trades st) /\
            st_initialCapital (stats r) = initCap /\
            Some (finalCapital (stats r)) = ep_equity <$> last (equitySeries st).
Proof.
  intros Hne. unfold finalStats. destruct (equitySeries st) as [|e0 es] eqn:E.
  - congruence.
  - eexists. split; [reflexivity|]. simpl. repeat split; try reflexivity.
    rewrite last_cons. destruct (last es); reflexivity.
Qed.

(** What a run that returns a result is made of. *)
Lemma runBacktest_inv config fullData r :
  runBacktest config fullData = Some r ->
  exists d0 d1 rest,
    filterData config fullData = d0 :: d1 :: rest /\
    let st := loop config None (d0 :: d1 :: rest) (initState config d0) in
    equityCurve r = equitySeries st /\
    drawdownCurve r = drawdownSeries st /\
    yearlyReturns r = calculateYoY (equitySeries st) /\
    tradeLog r = rev (trades st) /\
    st_initialCapital (stats r) = initialCapital config d0 /\
    Some (finalCapital (stats r)) = ep_equity <$> last (equitySeries st).
Proof.
  unfold runBacktest. destruct fullData as [|x xs]; [discriminate|].
  destruct (filterData config (x :: xs)) as [|d0 [|d1 rest]]; try discriminate.
  intros H. exists d0, d1, rest. split; [reflexivity|]. cbv zeta.
  set (st := loop config None (d0 :: d1 :: rest) (initState config d0)) in *.
  assert (Hne : equitySeries st <> []).
  { intros E. apply (f_equal (@length _)) in E. unfold st in E.
    rewrite loop_equitySeries_length in E. simpl in E. lia. }
  destruct (finalStats_some config (initialCapital config d0) st Hne)
    as (r' & Hr' & H1 & H2 & H3 & H4 & H5 & H6).
  rewrite Hr' in H. injection H as <-. auto 10.
Qed.

(** Two filtered observations are enough for a result. *)
Lemma runBacktest_some config fullData :
  (2 <= length (filterData config fullData))%nat ->
  exists r, runBacktest config fullData = Some r.
Proof.
  intros Hlen. unfold runBacktest.
  destruct fullData as [|x xs]; [simpl in Hlen; lia|].
  destruct (filterData config (x :: xs)) as [|d0 [|d1 rest]]; simpl in Hlen; try lia.
  set (st := loop config None (d0 :: d1 :: rest) (initState config d0)).
  assert (Hne : equitySeries st <> []).
  { intros E. apply (f_equal (@length _)) in E. unfold st in E.
    rewrite loop_equitySeries_length in E. simpl in E. lia. }
  destruct (finalStats_some config (initialCapital config d0) st Hne) as (r & Hr & _).
  exists r. exact Hr.
Qed.

(** C5: when fewer than two observations fall in the window
    startDate <= date <= endDate, the run takes the early return: it
    yields no result at all (no stats, no curve, no trades).  The
    function is total, so there is nothing to crash. *)
Theorem C5_insufficient_data config fullData :
  (length (filterData config fullData) < 2)%nat ->
  runBacktest config fullData = None.
Proof.
  intros Hlen. unfold runBacktest.
  destruct fullData as [|x xs]; [reflexivity|].
  destruct (filterData config (x :: xs)) as [|d0 [|d1 rest]];
    [reflexivity|reflexivity|simpl in Hlen; lia].
Qed.

(** Three observations of which a single one lies inside the window. *)
Lemma C5_insufficient_data_witness :
  let config := mkConfig "2020-01-02" "2020-01-02" 1 10 50 200 true false in
  (length (filterData config Scenario.series) < 2)%nat /\
  runBacktest config Scenario.series = None.
Proof.
  cbv zeta.
  assert (H : (length (filterData
                         (mkConfig "2020-01-02" "2020-01-02" 1 10 50 200 true false)
                         Scenario.series) < 2)%nat) by (vm_compute; lia).
  split; [exact H|].
  exact (C5_insufficient_data _ _ H).
Defined.

(** ** The equity snapshots of the ledger (C9) *)

(** The entries one day adds to the ledger. *)
Lemma step_new_trades config prev d st :
  exists new, trades (step config prev d st) = (trades st ++ new)%list /\
              Forall (fun t => trade_date t = date d) new.
Proof.
  rewrite step_trades. unfold checkCompounding, checkRollover.
  destruct prev as [p|]; [destruct (negb _)|];
    destruct (compounding_due _ _ _); simpl; rewrite <- ?app_assoc;
    eexists; (split; [try reflexivity; symmetry; apply app_nil_r|]);
    repeat constructor.
Qed.

(** C9: of the entries a day adds to the ledger, a Rollover entry carries
    as equity the cash right after its netPnL was realized (the unrealized
    P&L of the new position is not in it), while a Compounding entry
    carries the day's mark-to-market equity, cash plus unrealized P&L.  On
    the day of [BothEvents.series] that has both, the Rollover entry shows
    950 and the Compounding entry 2850. *)
Theorem C9_equity_snapshot_bases :
  (forall config prev d st,
      let st1 := checkRollover config prev d st in
      let st' := step config prev d st in
      exists new,
        trades st' = (trades st ++ new)%list /\
        Forall (fun t =>
                  match t with
                  | Rollover _ _ _ _ _ _ _ netPnL e =>
                      e = cash st + netPnL /\ e = cash st'
                  | Compounding _ _ _ e _ =>
                      e = cash st' + unrealized d st1
                  end) new) /\
  (exists r,
      runBacktest BothEvents.cfg BothEvents.series = Some r /\
      Forall2 Trade_equiv (tradeLog r)
        [Compounding "2020-01-02" "Position Doubled" 2 2850 "Profit Target Hit";
         Rollover "2020-01-02" "A → B" 100 101 1 0 50 (-50) 950]).
Proof.
  split.
  - intros config prev d st. cbv zeta.
    rewrite step_cash, step_trades. unfold checkCompounding, checkRollover.
    destruct prev as [p|]; [destruct (negb _)|];
      destruct (compounding_due _ _ _); simpl; rewrite <- ?app_assoc;
      eexists; (split; [try reflexivity; symmetry; apply app_nil_r|]);
      repeat constructor.
  - eexists. split; [vm_compute; reflexivity|].
    repeat constructor; reflexivity.
Qed.

(** ** Lot size along the equity curve (C6) *)

Lemma adjacent_snoc {A : Type} (R : A -> A -> Prop) (l : list A) (z : A) :
  adjacent R l ->
  (forall x, last l = Some x -> R x z) ->
  adjacent R (l ++ [z])%list.
Proof.
  intros Hl Hz i x y Hx Hy.
  destruct (decide (S i < length l)%nat) as [Hlt|Hge].
  - rewrite lookup_app_l in Hx by lia. rewrite lookup_app_l in Hy by lia.
    eapply Hl; eassumption.
  - assert (Hi : (i < length l)%nat).
    { apply lookup_lt_Some in Hy. rewrite length_app in Hy. simpl in Hy. lia. }
    assert (E : S i = length l) by lia.
    rewrite lookup_app_l in Hx by lia.
    rewrite E, list_lookup_middle in Hy by reflexivity. injection Hy as <-.
    apply Hz. rewrite last_lookup.
    replace (Nat.pred (length l)) with i by lia. exact Hx.
Qed.

Section LoopInvariant.

Variable config : Config.
Variable P : State -> Prop.
Hypothesis P_step : forall prev d st, P st -> P (step config prev d st).

Lemma loop_invariant data prev st : P st -> P (loop config prev data st).
Proof.
  revert prev st. induction data as [|d data IH]; intros prev st H; simpl.
  - exact H.
  - apply IH, P_step, H.
Qed.

End LoopInvariant.

Lemma step_lots config prev d st :
  currentLots (step config prev d st) = currentLots st \/
  currentLots (step config prev d st) = currentLots st * 2.
Proof.
  unfold step, trackDrawdown, checkCompounding. simpl.
  destruct (compounding_due _ _ _); simpl; rewrite checkRollover_lots; auto.
Qed.

Lemma step_last_point config prev d st :
  exists pt,
    equitySeries (step config prev d st) = (equitySeries st ++ [pt])%list /\
    ep_lots pt = currentLots (step config prev d st).
Proof.
  unfold step, trackDrawdown. simpl.
  rewrite checkCompounding_series, checkRollover_series.
  eexists. split; reflexivity.
Qed.

Lemma lots_inv_step config prev d st :
  lots_inv st -> lots_inv (step config prev d st).
Proof.
  intros [Hadj Hlast].
  destruct (step_last_point config prev d st) as (pt & E & Hpt).
  unfold lots_inv. rewrite E. split.
  - apply adjacent_snoc; [exact Hadj|].
    intros x Hx. unfold lots_step. rewrite (Hlast x Hx), Hpt.
    apply step_lots.
  - intros p Hp. rewrite last_snoc in Hp. injection Hp as <-. exact Hpt.
Qed.

Lemma lots_nonneg_step config prev d st :
  lots_nonneg st -> lots_nonneg (step config prev d st).
Proof.
  intros [H0 Hall].
  assert (H0' : 0 <= currentLots (step config prev d st)).
  { destruct (step_lots config prev d st) as [-> | ->]; [exact H0|lra]. }
  split; [exact H0'|].
  destruct (step_last_point config prev d st) as (pt & -> & Hpt).
  apply Forall_app. split; [exact Hall|].
  constructor; [rewrite Hpt; exact H0'|constructor].
Qed.




(** ** The day-by-day log of a run *)

Lemma newPeak_Qmax eq st : newPeak eq st = Qmax (peakEquity st) eq.
Proof.
  unfold newPeak, Qmax, GenericMinMax.gmax.
  destruct (Qlt_le_dec (peakEquity st) eq) as [Hlt|Hle].
  - destruct (Qcompare_spec (peakEquity st) eq) as [E|E|E]; try reflexivity.
    + rewrite E in Hlt. exfalso. exact (Qlt_irrefl _ Hlt).
    + exfalso. exact (Qlt_irrefl _ (Qlt_trans _ _ _ Hlt E)).
  - destruct (Qcompare_spec (peakEquity st) eq) as [E|E|E]; try reflexivity.
    exfalso. exact (Qlt_not_le _ _ E Hle).
Qed.

Lemma step_point config prev d st :
  equitySeries (step config prev d st) =
  (equitySeries st ++
     [point_of (d, currentEquity d (checkRollover config prev d st),
                step config prev d st)])%list.
Proof.
  unfold step, trackDrawdown, point_of. simpl.
  rewrite checkCompounding_series, checkRollover_series. reflexivity.
Qed.

Lemma step_peak config prev d st :
  peakEquity (step config prev d st) =
  Qmax (peakEquity st) (currentEquity d (checkRollover config prev d st)).
Proof.
  unfold step, trackDrawdown. simpl. rewrite newPeak_Qmax.
  rewrite checkCompounding_peak, checkRollover_peak. reflexivity.
Qed.

Lemma loop_equitySeries config prev data st :
  equitySeries (loop config prev data st) =
  (equitySeries st ++ map point_of (dayLog config prev data st))%list.
Proof.
  revert prev st. induction data as [|d data IH]; intros prev st; simpl.
  - now rewrite app_nil_r.
  - rewrite IH, step_point, <- app_assoc. reflexivity.
Qed.

Lemma dayLog_peaks config prev data st :
  map (fun e => peakEquity e.2) (dayLog config prev data st) =
  running_max (peakEquity st) (map (fun e => e.1.2) (dayLog config prev data st)).
Proof.
  revert prev st. induction data as [|d data IH]; intros prev st; simpl.
  - reflexivity.
  - rewrite IH, step_peak. f_equal. exact (step_peak config prev d st).
Qed.

Lemma runBacktest_log config fullData r :
  runBacktest config fullData = Some r ->
  equityCurve r = map point_of (runLog config fullData).
Proof.
  intros Hrun. destruct (runBacktest_inv _ _ _ Hrun) as (d0 & d1 & rest & Hf & Hr).
  cbv zeta in Hr. destruct Hr as (-> & _).
  unfold runLog. rewrite Hf, loop_equitySeries. reflexivity.
Qed.

(** ** Drawdown (C7) *)

Lemma drawdown_pos peak eq :
  0 < peak -> drawdown peak eq = ((peak - eq) / peak) * 100.
Proof.
  intros H. unfold drawdown. destruct (Qlt_le_dec 0 peak) as [_|Hle];
    [reflexivity | exfalso; exact (Qlt_not_le _ _ H Hle)].
Qed.

Lemma drawdown_nonpos peak eq : peak <= 0 -> drawdown peak eq = 0.
Proof.
  intros H. unfold drawdown. destruct (Qlt_le_dec 0 peak) as [Hlt|_];
    [exfalso; exact (Qlt_not_le _ _ Hlt H) | reflexivity].
Qed.

Lemma drawdown_nonneg peak eq : eq <= peak -> 0 <= drawdown peak eq.
Proof.
  intros H. unfold drawdown. destruct (Qlt_le_dec 0 peak) as [Hlt|_]; [|lra].
  assert (H1 : 0 <= (peak - eq) / peak).
  { apply Qle_shift_div_l; [exact Hlt | lra]. }
  lra.
Qed.

Lemma drawdown_le_100 peak eq : 0 <= eq -> drawdown peak eq <= 100.
Proof.
  intros H. unfold drawdown. destruct (Qlt_le_dec 0 peak) as [Hlt|_]; [|lra].
  assert (H1 : (peak - eq) / peak <= 1).
  { apply Qle_shift_div_r; [exact Hlt | lra]. }
  lra.
Qed.

Lemma drawdown_at_peak peak eq : eq == peak -> drawdown peak eq == 0.
Proof.
  intros H. unfold drawdown. destruct (Qlt_le_dec 0 peak) as [Hlt|_]; [|reflexivity].
  assert (H1 : (peak - eq) / peak == 0).
  { rewrite H. unfold Qdiv. ring. }
  rewrite H1. reflexivity.
Qed.

Lemma toFixed_nonneg f x : 0 <= x -> (0 <= toFixed f x)%Z.
Proof.
  intros H. unfold toFixed. apply Qle_bool_iff in H as Hb. rewrite Hb.
  change 0%Z with (Qfloor 0). apply Qfloor_resp_le.
  assert (Hs : 0 <= inject_Z (10 ^ Z.of_nat f)).
  { change 0 with (inject_Z 0). rewrite <- Zle_Qle. apply Z.pow_nonneg. lia. }
  assert (Hm : 0 <= x * inject_Z (10 ^ Z.of_nat f)) by (apply Qmult_le_0_compat; assumption).
  lra.
Qed.

Lemma toFixed_2_le_100 x : 0 <= x -> x <= 100 -> (toFixed 2 x <= 10000)%Z.
Proof.
  intros H0 H. unfold toFixed. apply Qle_bool_iff in H0 as Hb. rewrite Hb.
  change 10000%Z with (Qfloor (10000 + (1 # 2))). apply Qfloor_resp_le.
  change (inject_Z (10 ^ Z.of_nat 2)) with 100. lra.
Qed.

Lemma toFixed_zero f x : x == 0 -> toFixed f x = 0%Z.
Proof.
  intros H. unfold toFixed.
  assert (Hb : Qle_bool 0 x = true) by (apply Qle_bool_iff; lra).
  rewrite Hb.
  assert (E : x * inject_Z (10 ^ Z.of_nat f) + (1 # 2) == 1 # 2).
  { rewrite H. ring. }
  rewrite (Qfloor_comp _ _ E). reflexivity.
Qed.

Lemma dayLog_below_peak config prev data st :
  Forall (fun e => e.1.2 <= peakEquity e.2) (dayLog config prev data st).
Proof.
  revert prev st. induction data as [|d data IH]; intros prev st; simpl.
  - constructor.
  - constructor; [|apply IH].
    change (currentEquity d (checkRollover config prev d st)
            <= peakEquity (step config prev d st)).
    rewrite step_peak. apply Q.le_max_r.
Qed.

(** The bound [drawdownPercent <= 100] fails once equity is negative: in
    [Crash.series] the second day has equity -1000 under a peak of 1000,
    and its equity point shows a drawdown of 200.00 percent. *)
Lemma C7_drawdown_can_exceed_100 :
  exists r pt,
    runBacktest Crash.cfg Crash.series = Some r /\
    equityCurve r !! 1%nat = Some pt /\
    ep_equity pt = (-1000)%Z /\
    ep_drawdown pt = 20000%Z /\
    drawdown 1000 (-1000) == 200 /\
    ~ (drawdown 1000 (-1000) <= 100).
Proof.
  eexists _, _. split; [vm_compute; reflexivity|].
  split; [reflexivity|]. split; [reflexivity|]. split; [reflexivity|].
  split; [reflexivity|]. vm_compute. intros H. apply H. reflexivity.
Qed.

(** C7, as the code has it: the equity curve of a run is the image of its
    day log; the peak of each day is the running maximum of
    initialCapital and the equities so far; and on every day, with [eq] the
    day's equity and [peak] that maximum, drawdownPercent is
    (peak - eq) / peak * 100 when peak > 0 and 0 when peak <= 0, it is
    never negative, it is 0 when eq equals peak, and it is at most 100
    when eq is not negative.  The same bounds hold for the two-decimal
    value stored in the equity point (in hundredths: 0 to 10000). *)
Theorem C7_drawdown_bounds config fullData r :
  runBacktest config fullData = Some r ->
  let log := runLog config fullData in
  equityCurve r = map point_of log /\
  (exists d0 rest,
      filterData config fullData = d0 :: rest /\
      map (fun e => peakEquity e.2) log =
      running_max (initialCapital config d0) (map (fun e => e.1.2) log)) /\
  Forall (fun e =>
            let eq := e.1.2 in
            let peak := peakEquity e.2 in
            let dd := drawdown peak eq in
            ep_drawdown (point_of e) = toFixed 2 dd /\
            (0 < peak -> dd = ((peak - eq) / peak) * 100) /\
            (peak <= 0 -> dd = 0) /\
            0 <= dd /\
            (0 <= eq -> dd <= 100) /\
            (eq == peak -> dd == 0) /\
            (0 <= ep_drawdown (point_of e))%Z /\
            (0 <= eq -> (ep_drawdown (point_of e) <= 10000)%Z) /\
            (eq == peak -> ep_drawdown (point_of e) = 0%Z)) log.
Proof.
  intros Hrun log. split; [exact (runBacktest_log _ _ _ Hrun)|].
  destruct (runBacktest_inv _ _ _ Hrun) as (d0 & d1 & rest & Hf & _).
  assert (Hlog : log = dayLog config None (d0 :: d1 :: rest) (initState config d0)).
  { unfold log, runLog. rewrite Hf. reflexivity. }
  split.
  - exists d0, (d1 :: rest). split; [exact Hf|].
    rewrite Hlog. apply dayLog_peaks.
  - rewrite Hlog.
    eapply Forall_impl; [apply dayLog_below_peak|].
    intros [[d eq] st'] Hle. simpl in Hle. simpl.
    assert (H0 : 0 <= drawdown (peakEquity st') eq) by (apply drawdown_nonneg, Hle).
    split; [reflexivity|].
    split; [apply drawdown_pos|]. split; [apply drawdown_nonpos|].
    split; [exact H0|]. split; [apply drawdown_le_100|].
    split; [apply drawdown_at_peak|].
    split; [apply toFixed_nonneg, H0|].
    split.
    + intros Hq. apply toFixed_2_le_100; [exact H0 | apply drawdown_le_100, Hq].
    + intros Hq. apply toFixed_zero, drawdown_at_peak, Hq.
Qed.

Lemma C7_drawdown_bounds_witness :
  exists r,
    runBacktest Scenario.cfg Scenario.series = Some r /\
    equityCurve r = map point_of (runLog Scenario.cfg Scenario.series).
Proof.
  destruct (runBacktest_some Scenario.cfg Scenario.series) as [r Hr];
    [vm_compute; lia|].
  exists r. split; [exact Hr|].
  exact (proj1 (C7_drawdown_bounds Scenario.cfg Scenario.series r Hr)).
Defined.

(** ** The first day of a run (C10) *)




Lemma loop_trades_dates config prev data st :
  exists new,
    trades (loop config prev data st) = (trades st ++ new)%list /\
    Forall (fun t => In (trade_date t) (map date data)) new.
Proof.
  revert prev st. induction data as [|d data IH]; intros prev st; simpl.
  - exists []. split; [now rewrite app_nil_r | constructor].
  - destruct (IH (Some d) (step config prev d st)) as (new2 & E2 & H2).
    destruct (step_new_trades config prev d st) as (new1 & E1 & H1).
    exists (new1 ++ new2)%list. split.
    + rewrite E2, E1, <- app_assoc. reflexivity.
    + apply Forall_app. split.
      * eapply Forall_impl; [exact H1|]. intros t Ht. left. symmetry. exact Ht.
      * eapply Forall_impl; [exact H2|]. intros t Ht. right. exact Ht.
Qed.






(** ** Yearly returns: examples *)

(** ** Yearly returns: the order on year labels *)

Lemma str_le_iff a b : str_le a b <-> a = b \/ String_as_OT.lt a b.
Proof.
  unfold str_le, String.leb.
  rewrite <- String_as_OT.cmp_lt, <- String_as_OT.cmp_eq.
  unfold String_as_OT.cmp.
  destruct (String.compare a b); split; intros H;
    try reflexivity; try discriminate; auto;
    destruct H; discriminate.
Qed.

#[global] Instance str_le_refl : Reflexive str_le.
Proof. intros a. apply str_le_iff. now left. Qed.

#[global] Instance str_le_trans : Transitive str_le.
Proof.
  intros a b c Hab Hbc. apply str_le_iff in Hab, Hbc. apply str_le_iff.
  destruct Hab as [->|Hab]; [exact Hbc|].
  destruct Hbc as [<-|Hbc]; [now right|].
  right. eapply String_as_OT.lt_trans; eassumption.
Qed.

#[global] Instance str_le_total : Total str_le.
Proof. intros a b. apply String.leb_total. Qed.

#[global] Instance str_le_antisym : AntiSymm (=) str_le.
Proof. intros a b Hab Hba. now apply String.leb_antisym. Qed.

(** ** Yearly returns: what [yearsMap] holds *)

Lemma yearsMap_of_snoc series d :
  yearsMap_of (series ++ [d]) = yearsMap_add (yearsMap_of series) d.
Proof. unfold yearsMap_of. rewrite fold_left_app. reflexivity. Qed.

Lemma yearsMap_lookup series y :
  yearsMap_of series !! y =
  match year_points y series with
  | [] => None
  | p :: ps => Some (ep_equity p, ep_equity (default p (last ps)))
  end.
Proof.
  induction series as [|d series IH] using rev_ind.
  - reflexivity.
  - rewrite yearsMap_of_snoc. unfold year_points in *. rewrite filter_app.
    unfold yearsMap_add. fold (point_year d).
    destruct (decide (point_year d = y)) as [E|NE].
    + rewrite filter_cons_True by exact E. rewrite filter_nil. subst y.
      destruct (filter _ series) as [|p ps] eqn:F.
      * rewrite IH. rewrite lookup_alter_eq, lookup_insert_eq. reflexivity.
      * rewrite IH. rewrite lookup_alter_eq, IH. simpl.
        rewrite last_snoc. reflexivity.
    + rewrite filter_cons_False by exact NE. rewrite filter_nil, app_nil_r.
      rewrite lookup_alter_ne by exact NE.
      destruct (yearsMap_of series !! point_year d).
      * exact IH.
      * rewrite lookup_insert_ne by exact NE. exact IH.
Qed.


Lemma yearsMap_is_Some series y :
  is_Some (yearsMap_of series !! y) <-> exists d, d ∈ series /\ point_year d = y.
Proof.
  rewrite yearsMap_lookup. unfold year_points. split.
  - destruct (filter _ series) as [|p ps] eqn:F; intros [x Hx]; [discriminate|].
    assert (Hin : p ∈ filter (fun d => point_year d = y) series)
      by (rewrite F; left).
    apply list_elem_of_filter in Hin as [Hy Hin]. eauto.
  - intros (d & Hin & Hy).
    assert (Hd : d ∈ filter (fun d => point_year d = y) series)
      by (apply list_elem_of_filter; auto).
    destruct (filter _ series) as [|p ps]; [inversion Hd | eauto].
Qed.

(** ** Yearly returns: the sorted years and the rows of the loop *)

Lemma sorted_years_elem (m : gmap string (Z * Z)) (y : string) :
  y ∈ sorted_years m <-> is_Some (m !! y).
Proof.
  unfold sorted_years. rewrite merge_sort_Permutation, list_elem_of_fmap. split.
  - intros ([k v] & -> & Hin). apply elem_of_map_to_list in Hin. simpl. eauto.
  - intros [v Hv]. exists (y, v). split; [reflexivity|].
    apply elem_of_map_to_list. exact Hv.
Qed.



Lemma yoyLoop_rows m prevY years :
  yoyLoop m prevY years = map render_row (yoyRows m prevY years).
Proof.
  revert prevY. induction years as [|y rest IH]; intros prevY; simpl.
  - reflexivity.
  - rewrite IH. reflexivity.
Qed.

Lemma calculateYoY_rows series :
  calculateYoY series = map render_row (yearRows series).
Proof. apply yoyLoop_rows. Qed.

Lemma yoyRows_years m prevY years :
  map (fun row => row.1.1) (yoyRows m prevY years) = years.
Proof.
  revert prevY. induction years as [|y rest IH]; intros prevY; simpl.
  - reflexivity.
  - rewrite IH. reflexivity.
Qed.


Lemma inject_Z_nonzero (z : Z) : z <> 0%Z -> ~ inject_Z z == 0.
Proof. intros H E. apply H. unfold Qeq in E. simpl in E. lia. Qed.




(** ** Yearly returns: series whose years never decrease *)



Section SortedSeries.

Variable series : list EquityPoint.
Hypothesis years_ascend : StronglySorted str_le (map point_year series).

Let m := yearsMap_of series.





End SortedSeries.

(** ** Yearly returns and their chaining (C8) *)





(** ** Division guards (C4) *)

Lemma finalStats_totalReturn config initCap st r :
  finalStats config initCap st = Some r ->
  totalReturn (stats r) =
  option_map (fun x => x * 100)
    (jsdiv (inject_Z (finalCapital (stats r)) - st_initialCapital (stats r))
           (st_initialCapital (stats r))).
Proof.
  unfold finalStats. destruct (equitySeries st) as [|e0 es]; [discriminate|].
  intros H. injection H as <-. reflexivity.
Qed.

Lemma runBacktest_totalReturn config fullData r :
  runBacktest config fullData = Some r ->
  totalReturn (stats r) =
  option_map (fun x => x * 100)
    (jsdiv (inject_Z (finalCapital (stats r)) - st_initialCapital (stats r))
           (st_initialCapital (stats r))).
Proof.
  unfold runBacktest. destruct fullData as [|x xs]; [discriminate|].
  destruct (filterData config (x :: xs)) as [|d0 [|d1 rest]]; try discriminate.
  apply finalStats_totalReturn.
Qed.

(** C4, evaluated on the code.  The drawdown division is guarded: with a
    peak that is not positive the drawdown is 0.  The return divisions
    are not.  In [NegativeStart.series] the year 2021 starts from the
    equity -1000 at which 2020 ended and ends at -500: the start is not
    positive, and the yearly return is reported as -50.0 percent, not as
    zero.  In [ZeroStart.series] the year 2021 starts from equity 0: its
    return and the average annual return are not finite numbers.  In
    [ZeroCapital.series] the initial capital is 0: the drawdown of the
    first day, under a peak of 0, is 0.00, while the total return and the
    base of the CAGR, both divided by that capital, are not finite
    numbers. *)
Theorem C4_return_divisions_are_not_guarded :
  drawdown 0 (-1000) = 0 /\ drawdown (-1000) (-2000) = 0 /\
  (exists r,
      runBacktest NegativeStart.cfg NegativeStart.series = Some r /\
      map ep_equity (equityCurve r) = [1000; -1000; -500]%Z /\
      yearRows (equityCurve r) =
        [("2020", 1000, -1000); ("2021", -1000, -500)]%Z /\
      yearlyReturns r =
        [mkYearlyReturn "2020" (Some (-2000)%Z);
         mkYearlyReturn "2021" (Some (-500)%Z)] /\
      yoyRet (-1000) (-500) <> Some 0 /\
      (exists q, yoyRet (-1000) (-500) = Some q /\ q == -50)) /\
  (exists r,
      runBacktest ZeroStart.cfg ZeroStart.series = Some r /\
      map ep_equity (equityCurve r) = [1000; 0; 500]%Z /\
      yearRows (equityCurve r) = [("2020", 1000, 0); ("2021", 0, 500)]%Z /\
      yearlyReturns r =
        [mkYearlyReturn "2020" (Some (-1000)%Z); mkYearlyReturn "2021" None] /\
      avgAnnualRet (stats r) = None) /\
  (exists r,
      runBacktest ZeroCapital.cfg ZeroCapital.series = Some r /\
      st_initialCapital (stats r) == 0 /\
      map ep_equity (equityCurve r) = [0; 100]%Z /\
      map ep_drawdown (equityCurve r) = [0; 0]%Z /\
      totalReturn (stats r) = None /\
      cagr_base (stats r) = None /\
      yearlyReturns r = [mkYearlyReturn "2020" None]).
Proof.
  split; [reflexivity|]. split; [reflexivity|]. split; [|split].
  - eexists. split; [vm_compute; reflexivity|].
    split; [reflexivity|]. split; [vm_compute; reflexivity|].
    split; [reflexivity|]. split; [discriminate|].
    eexists. split; reflexivity.
  - eexists. split; [vm_compute; reflexivity|].
    split; [reflexivity|]. split; [vm_compute; reflexivity|].
    split; reflexivity.
  - eexists. split; [vm_compute; reflexivity|].
    split; [reflexivity|]. repeat split; reflexivity.
Qed.

(** ** Further properties of the engine: the date window *)

Lemma filterData_idem config fullData :
  filterData config (filterData config fullData) = filterData config fullData.
Proof.
  unfold filterData. apply List.forallb_filter_id, List.forallb_filter.
Qed.

Lemma filterData_sublist config fullData :
  sublist (filterData config fullData) fullData.
Proof.
  unfold filterData. induction fullData as [|d l IH]; simpl.
  - constructor.
  - destruct (in_window config d); [apply sublist_skip | apply sublist_cons]; exact IH.
Qed.

Lemma filterData_in_window config fullData d :
  In d (filterData config fullData) ->
  In d fullData /\ str_le (startDate config) (date d) /\ str_le (date d) (endDate config).
Proof.
  unfold filterData. rewrite List.filter_In. unfold in_window.
  rewrite andb_true_iff. tauto.
Qed.

(** X1.  The observations outside the window [startDate .. endDate] have no
    part in a run: the days the loop sees are a subsequence of the input,
    each dated inside the window, and the run on the full input is the run
    on its filtered part. *)
Theorem X_window_only :
  forall config fullData,
    sublist (filterData config fullData) fullData /\
    Forall (fun d => str_le (startDate config) (date d) /\
                     str_le (date d) (endDate config))
           (filterData config fullData) /\
    runBacktest config (filterData config fullData) = runBacktest config fullData.
Proof.
  intros config fullData. split; [apply filterData_sublist|]. split.
  - apply Forall_forall. intros d Hd. apply list_elem_of_In in Hd.
    apply filterData_in_window in Hd. tauto.
  - unfold runBacktest. rewrite filterData_idem.
    destruct fullData as [|x xs]; [reflexivity|].
    destruct (filterData config (x :: xs)) as [|d0 l]; reflexivity.
Qed.

Lemma str_lt_not_le a b : String.ltb a b = true -> String.leb b a = false.
Proof.
  unfold String.ltb, String.leb. rewrite (String.compare_antisym a b).
  destruct (String.compare b a); simpl; congruence.
Qed.

(** X2.  A window whose end date is before its start date holds no day, so the
    run returns nothing, whatever the input. *)
Theorem X_inverted_window config fullData :
  String.ltb (endDate config) (startDate config) = true ->
  filterData config fullData = [] /\ runBacktest config fullData = None.
Proof.
  intros Hlt.
  assert (He : filterData config fullData = []).
  { destruct (filterData config fullData) as [|d l] eqn:E; [reflexivity|].
    assert (Hin : In d (filterData config fullData)) by (rewrite E; left; reflexivity).
    apply filterData_in_window in Hin as (_ & H1 & H2).
    assert (H3 : str_le (startDate config) (endDate config))
      by (etransitivity; eassumption).
    apply str_lt_not_le in Hlt. unfold str_le in H3. congruence. }
  split; [exact He|].
  unfold runBacktest. rewrite He. destruct fullData; reflexivity.
Qed.

Lemma X_inverted_window_witness :
  let config := mkConfig "2020-12-31" "2020-01-01" 1 10 50 200 true false in
  String.ltb (endDate config) (startDate config) = true /\
  runBacktest config Scenario.series = None.
Proof.
  cbv zeta.
  assert (H : String.ltb
                (endDate (mkConfig "2020-12-31" "2020-01-01" 1 10 50 200 true false))
                (startDate (mkConfig "2020-12-31" "2020-01-01" 1 10 50 200 true false))
              = true) by reflexivity.
  split; [exact H|].
  exact (proj2 (X_inverted_window _ Scenario.series H)).
Defined.

(** ** Further properties of the engine: curves and ledger *)

Lemma dayLog_days config prev data st :
  map (fun e => e.1.1) (dayLog config prev data st) = data.
Proof.
  revert prev st. induction data as [|d data IH]; intros prev st; simpl.
  - reflexivity.
  - rewrite IH. reflexivity.
Qed.

Lemma dayLog_dates config prev data st :
  map ep_date (map point_of (dayLog config prev data st)) = map date data.
Proof.
  rewrite <- (dayLog_days config prev data st) at 2.
  rewrite !map_map. apply map_ext. intros [[d eq] st']. reflexivity.
Qed.

Lemma curves_aligned_step config prev d st :
  curves_aligned st -> curves_aligned (step config prev d st).
Proof.
  unfold curves_aligned, step, trackDrawdown. simpl. intros H.
  assert (E1 : drawdownSeries
                 (checkCompounding config d
                    (currentEquity d (checkRollover config prev d st))
                    (checkRollover config prev d st)) = drawdownSeries st).
  { unfold checkCompounding, checkRollover.
    destruct prev as [p|]; [destruct (negb _)|];
      destruct (compounding_due _ _ _); reflexivity. }
  rewrite E1, checkCompounding_series, checkRollover_series, H, map_app.
  reflexivity.
Qed.

(** X3.  A run pushes one equity point and one drawdown point per filtered day,
    in the order of the days and under the day's date, and the drawdown
    curve repeats the date and the drawdown of the equity curve point by
    point. *)
Theorem X_curves_follow_days config fullData r :
  runBacktest config fullData = Some r ->
  map ep_date (equityCurve r) = map date (filterData config fullData) /\
  drawdownCurve r = map drawdown_point_of (equityCurve r) /\
  length (equityCurve r) = length (filterData config fullData) /\
  length (drawdownCurve r) = length (filterData config fullData).
Proof.
  intros Hrun.
  destruct (runBacktest_inv _ _ _ Hrun) as (d0 & d1 & rest & Hf & Hr).
  cbv zeta in Hr. destruct Hr as (Hcurve & Hdd & _).
  assert (Hdates : map ep_date (equityCurve r) = map date (filterData config fullData)).
  { rewrite Hcurve, loop_equitySeries, Hf. apply dayLog_dates. }
  assert (Hal : drawdownCurve r = map drawdown_point_of (equityCurve r)).
  { rewrite Hdd, Hcurve.
    apply (loop_invariant config curves_aligned (curves_aligned_step config)).
    reflexivity. }
  assert (Hlen : length (equityCurve r) = length (filterData config fullData)).
  { rewrite <- (length_map ep_date), Hdates, length_map. reflexivity. }
  split; [exact Hdates|]. split; [exact Hal|]. split; [exact Hlen|].
  rewrite Hal, length_map. exact Hlen.
Qed.

Lemma X_curves_follow_days_witness :
  exists r,
    runBacktest Scenario.cfg Scenario.series = Some r /\
    map ep_date (equityCurve r) = ["2020-01-01"; "2020-01-02"; "2020-01-03"] /\
    length (drawdownCurve r) = 3%nat.
Proof.
  destruct (runBacktest_some Scenario.cfg Scenario.series) as [r Hr];
    [vm_compute; lia|].
  destruct (X_curves_follow_days Scenario.cfg Scenario.series r Hr)
    as (Hd & _ & _ & Hl).
  exists r. split; [exact Hr|]. split; [exact Hd | exact Hl].
Defined.

Lemma count_type_app ty l1 l2 :
  count_type ty (l1 ++ l2) = (count_type ty l1 + count_type ty l2)%nat.
Proof. unfold count_type. rewrite filter_app, length_app. reflexivity. Qed.

Lemma count_type_rev ty l : count_type ty (rev l) = count_type ty l.
Proof.
  induction l as [|t l IH]; [reflexivity|].
  simpl rev. rewrite count_type_app, IH.
  change (t :: l) with ([t] ++ l)%list. rewrite count_type_app. lia.
Qed.

(** The ledger entries one day adds, by type. *)
Lemma step_counts config prev d st :
  count_type "Rollover" (trades (step config prev d st)) =
    (count_type "Rollover" (trades st) + label_changes prev [d])%nat /\
  count_type "Compounding" (trades (step config prev d st)) =
    (count_type "Compounding" (trades st) +
     if compounding_due config (currentEquity d (checkRollover config prev d st))
          (checkRollover config prev d st) then 1 else 0)%nat.
Proof.
  rewrite step_trades. unfold checkCompounding, checkRollover. simpl label_changes.
  destruct prev as [p|].
  - destruct (String.eqb (expiry_near d) (expiry_near p)); simpl negb; cbv iota;
      destruct (compounding_due _ _ _); simpl trades;
      rewrite ?count_type_app; split; reflexivity || (simpl; lia) ||
      (unfold count_type; simpl; lia).
  - destruct (compounding_due _ _ _); simpl trades;
      rewrite ?count_type_app; split; reflexivity || (simpl; lia) ||
      (unfold count_type; simpl; lia).
Qed.

Lemma loop_rollover_count config prev data st :
  count_type "Rollover" (trades (loop config prev data st)) =
  (count_type "Rollover" (trades st) + label_changes prev data)%nat.
Proof.
  revert prev st. induction data as [|d data IH]; intros prev st.
  - simpl. lia.
  - simpl loop. rewrite IH. destruct (step_counts config prev d st) as [-> _].
    simpl label_changes. lia.
Qed.

Lemma label_changes_bound prev data :
  (label_changes prev data <= length data)%nat /\
  (label_changes None data <= pred (length data))%nat.
Proof.
  assert (H : forall l q, (label_changes q l <= length l)%nat).
  { induction l as [|d l IH]; intros q; simpl; [lia|].
    specialize (IH (Some d)).
    destruct q as [p|]; [destruct (String.eqb _ _)|]; lia. }
  split; [apply H|].
  destruct data as [|d data]; simpl; [lia|]. apply H.
Qed.

(** X4.  The trade log holds exactly one Rollover entry for every filtered day
    whose near label differs from the label of the filtered day before it;
    there are fewer of them than days. *)
Theorem X_rollover_per_label_change config fullData r :
  runBacktest config fullData = Some r ->
  count_type "Rollover" (tradeLog r) = label_changes None (filterData config fullData) /\
  (count_type "Rollover" (tradeLog r) < length (filterData config fullData))%nat.
Proof.
  intros Hrun.
  destruct (runBacktest_inv _ _ _ Hrun) as (d0 & d1 & rest & Hf & Hr).
  cbv zeta in Hr. destruct Hr as (_ & _ & _ & Hlog & _).
  assert (E : count_type "Rollover" (tradeLog r) =
              label_changes None (filterData config fullData)).
  { rewrite Hlog, count_type_rev, loop_rollover_count, Hf. reflexivity. }
  split; [exact E|]. rewrite E.
  destruct (label_changes_bound None (filterData config fullData)) as [_ H].
  rewrite Hf in *. simpl length in *. simpl pred in H. lia.
Qed.

Lemma X_rollover_per_label_change_witness :
  exists r,
    runBacktest Scenario.cfg Scenario.series = Some r /\
    count_type "Rollover" (tradeLog r) = 1%nat.
Proof.
  destruct (runBacktest_some Scenario.cfg Scenario.series) as [r Hr];
    [vm_compute; lia|].
  exists r. split; [exact Hr|].
  exact (proj1 (X_rollover_per_label_change Scenario.cfg Scenario.series r Hr)).
Defined.

(** ** Further properties of the engine: lots and compounding *)

Lemma compounding_due_disabled config eq st :
  compounding_enabled config = false -> compounding_due config eq st = false.
Proof.
  intros H. unfold compounding_due. fold (compounding_enabled config).
  rewrite H. reflexivity.
Qed.

Lemma no_compounding_step config prev d st :
  compounding_enabled config = false ->
  no_compounding_inv config st -> no_compounding_inv config (step config prev d st).
Proof.
  intros Hoff (Hl & Hall & Hc).
  assert (Hdue := compounding_due_disabled config
                    (currentEquity d (checkRollover config prev d st))
                    (checkRollover config prev d st) Hoff).
  assert (Hl' : currentLots (step config prev d st) = initialLots config).
  { unfold step, trackDrawdown, checkCompounding. rewrite Hdue. simpl.
    rewrite checkRollover_lots. exact Hl. }
  split; [exact Hl'|]. split.
  - destruct (step_last_point config prev d st) as (pt & -> & Hpt).
    apply Forall_app. split; [exact Hall|].
    constructor; [rewrite Hpt; exact Hl' | constructor].
  - destruct (step_counts config prev d st) as [_ ->]. rewrite Hdue, Hc. reflexivity.
Qed.

Lemma run_without_compounding config fullData r :
  compounding_enabled config = false ->
  runBacktest config fullData = Some r ->
  Forall (fun p => ep_lots p = initialLots config) (equityCurve r) /\
  count_type "Compounding" (tradeLog r) = 0%nat.
Proof.
  intros Hoff Hrun.
  destruct (runBacktest_inv _ _ _ Hrun) as (d0 & d1 & rest & Hf & Hr).
  cbv zeta in Hr. destruct Hr as (Hcurve & _ & _ & Hlog & _).
  assert (Hinv : no_compounding_inv config
                   (loop config None (d0 :: d1 :: rest) (initState config d0))).
  { apply loop_invariant.
    - intros prev d st. apply no_compounding_step, Hoff.
    - split; [reflexivity|]. split; [constructor | reflexivity]. }
  destruct Hinv as (_ & Hall & Hc).
  rewrite Hcurve, Hlog, count_type_rev. split; assumption.
Qed.

(** X5.  With compounding switched off (neverCompound set, or isCompounding
    not set) a run never doubles: every equity point shows initialLots,
    the trade log has no Compounding entry, and all its entries are the
    rollovers of the label changes. *)
Theorem X_no_compounding_when_disabled config fullData r :
  compounding_enabled config = false ->
  runBacktest config fullData = Some r ->
  Forall (fun p => ep_lots p = initialLots config) (equityCurve r) /\
  count_type "Compounding" (tradeLog r) = 0%nat /\
  Forall (fun t => trade_type t = "Rollover") (tradeLog r) /\
  length (tradeLog r) = label_changes None (filterData config fullData).
Proof.
  intros Hoff Hrun.
  destruct (run_without_compounding config fullData r Hoff Hrun) as [Hl Hc].
  split; [exact Hl|]. split; [exact Hc|].
  assert (Hall : Forall (fun t => trade_type t = "Rollover") (tradeLog r)).
  { apply Forall_forall. intros t Ht.
    destruct t; [reflexivity|]. exfalso.
    unfold count_type in Hc. apply length_zero_iff_nil in Hc.
    assert (Hin : Compounding t_date contracts lots equity note
                  ∈ filter (fun t => trade_type t = "Compounding") (tradeLog r))
      by (apply list_elem_of_filter; split; [reflexivity | exact Ht]).
    rewrite Hc in Hin. inversion Hin. }
  split; [exact Hall|].
  destruct (runBacktest_inv _ _ _ Hrun) as (d0 & d1 & rest & Hf & Hr).
  cbv zeta in Hr. destruct Hr as (_ & _ & _ & Hlog & _).
  assert (E : count_type "Rollover" (tradeLog r) = length (tradeLog r)).
  { unfold count_type. f_equal. clear -Hall.
    induction (tradeLog r) as [|t l IH]; [reflexivity|].
    inversion Hall as [|? ? Ht Hl]; subst.
    rewrite filter_cons_True by exact Ht. f_equal. apply IH, Hl. }
  rewrite <- E, Hlog, count_type_rev, loop_rollover_count, Hf. reflexivity.
Qed.

Lemma X_no_compounding_when_disabled_witness :
  let config := mkConfig "2020-01-01" "2020-12-31" 1 10 50 200 false true in
  exists r,
    compounding_enabled config = false /\
    runBacktest config Doubling.series = Some r /\
    Forall (fun p => ep_lots p = 1) (equityCurve r).
Proof.
  cbv zeta.
  destruct (runBacktest_some
              (mkConfig "2020-01-01" "2020-12-31" 1 10 50 200 false true)
              Doubling.series) as [r Hr]; [vm_compute; lia|].
  exists r. split; [reflexivity|]. split; [exact Hr|].
  exact (proj1 (X_no_compounding_when_disabled
                  (mkConfig "2020-01-01" "2020-12-31" 1 10 50 200 false true)
                  Doubling.series r eq_refl Hr)).
Defined.

(** X6.  The handler of the "Never Compound" checkbox leaves the two flags
    complementary whatever they were before and touches no other setting:
    dates, lots, margin, transaction cost and compounding factor are those
    of the configuration it was given.  A run on the configuration it
    produces when the box is checked records no Compounding entry and keeps
    initialLots on every equity point. *)
Theorem X_never_compound_checkbox :
  forall checked config,
    let config' := onNeverCompoundChange checked config in
    neverCompound config' = checked /\
    isCompounding config' = negb checked /\
    isCompounding config' = negb (neverCompound config') /\
    compounding_enabled config' = negb checked /\
    startDate config' = startDate config /\
    endDate config' = endDate config /\
    initialLots config' = initialLots config /\
    initialMarginPercent config' = initialMarginPercent config /\
    transactionCost config' = transactionCost config /\
    compoundingFactor config' = compoundingFactor config /\
    (forall fullData, filterData config' fullData = filterData config fullData) /\
    (forall d0, initialCapital config' d0 = initialCapital config d0) /\
    (checked = true ->
     forall fullData r,
       runBacktest config' fullData = Some r ->
       Forall (fun p => ep_lots p = initialLots config) (equityCurve r) /\
       count_type "Compounding" (tradeLog r) = 0%nat).
Proof.
  intros checked config config'.
  split; [reflexivity|]. split; [reflexivity|]. split; [reflexivity|].
  split; [unfold compounding_enabled; simpl; destruct checked; reflexivity|].
  split; [reflexivity|]. split; [reflexivity|]. split; [reflexivity|].
  split; [reflexivity|]. split; [reflexivity|]. split; [reflexivity|].
  split; [reflexivity|]. split; [reflexivity|].
  intros -> fullData r Hrun.
  exact (run_without_compounding config' fullData r eq_refl Hrun).
Qed.

Lemma X_never_compound_checkbox_witness :
  exists r,
    runBacktest (onNeverCompoundChange true Doubling.cfg) Doubling.series = Some r /\
    count_type "Compounding" (tradeLog r) = 0%nat.
Proof.
  destruct (runBacktest_some (onNeverCompoundChange true Doubling.cfg)
              Doubling.series) as [r Hr]; [vm_compute; lia|].
  exists r. split; [exact Hr|].
  destruct (X_never_compound_checkbox true Doubling.cfg)
    as (_ & _ & _ & _ & _ & _ & _ & _ & _ & _ & _ & _ & H).
  exact (proj2 (H eq_refl Doubling.series r Hr)).
Defined.

Lemma step_lots_due config prev d st :
  currentLots (step config prev d st) =
  if compounding_due config (currentEquity d (checkRollover config prev d st))
       (checkRollover config prev d st)
  then currentLots st * 2 else currentLots st.
Proof.
  unfold step, trackDrawdown, checkCompounding.
  destruct (compounding_due _ _ _); simpl; rewrite checkRollover_lots; reflexivity.
Qed.

Lemma lots_power_step config prev d st :
  lots_power_inv config st -> lots_power_inv config (step config prev d st).
Proof.
  unfold lots_power_inv. intros H.
  destruct (step_counts config prev d st) as [_ ->]. rewrite step_lots_due.
  destruct (compounding_due _ _ _).
  - rewrite H. replace (Z.of_nat (count_type "Compounding" (trades st) + 1))
      with (Z.succ (Z.of_nat (count_type "Compounding" (trades st)))) by lia.
    rewrite Z.pow_succ_r by lia. rewrite inject_Z_mult. ring.
  - rewrite Nat.add_0_r. exact H.
Qed.

Lemma run_final_state config fullData r :
  runBacktest config fullData = Some r ->
  exists d0 rest,
    filterData config fullData = d0 :: rest /\
    let st := loop config None (d0 :: rest) (initState config d0) in
    equityCurve r = equitySeries st /\ tradeLog r = rev (trades st) /\
    lots_inv st /\ lots_power_inv config st /\
    (0 <= initialLots config -> lots_nonneg st).
Proof.
  intros Hrun.
  destruct (runBacktest_inv _ _ _ Hrun) as (d0 & d1 & rest & Hf & Hr).
  cbv zeta in Hr. destruct Hr as (Hcurve & _ & _ & Hlog & _).
  exists d0, (d1 :: rest). split; [exact Hf|]. cbv zeta.
  split; [exact Hcurve|]. split; [exact Hlog|].
  split; [|split].
  - apply loop_invariant; [apply lots_inv_step|].
    split; simpl; [intros j x y Hx; discriminate Hx | intros x Hx; discriminate Hx].
  - apply loop_invariant; [apply lots_power_step|].
    unfold lots_power_inv.
    change (currentLots (initState config d0)) with (initialLots config).
    change (trades (initState config d0)) with (@nil Trade).
    change (inject_Z (2 ^ Z.of_nat (count_type "Compounding" []))) with 1.
    ring.
  - intros Hpos. apply loop_invariant; [apply lots_nonneg_step|].
    split; simpl; [exact Hpos | constructor].
Qed.

(** X7.  The lot size on the last equity point (the "Current Lots" badge) is
    initialLots times 2 to the number of Compounding entries in the trade
    log. *)
Theorem X_current_lots_power config fullData r :
  runBacktest config fullData = Some r ->
  exists l,
    currentLotsShown (equityCurve r) = Some l /\
    l == initialLots config *
         inject_Z (2 ^ Z.of_nat (count_type "Compounding" (tradeLog r))).
Proof.
  intros Hrun.
  destruct (run_final_state _ _ _ Hrun)
    as (d0 & rest & Hf & Hcurve & Hlog & [_ Hlast] & Hpow & _).
  unfold currentLotsShown. rewrite Hcurve.
  destruct (last (equitySeries (loop config None (d0 :: rest) (initState config d0))))
    as [pt|] eqn:El.
  - exists (ep_lots pt). split; [reflexivity|].
    rewrite (Hlast pt eq_refl), Hlog, count_type_rev. exact Hpow.
  - exfalso. apply last_None in El. apply (f_equal (@length _)) in El.
    rewrite loop_equitySeries_length in El. simpl in El. lia.
Qed.

Lemma X_current_lots_power_witness :
  exists r l,
    runBacktest Doubling.cfg Doubling.series = Some r /\
    currentLotsShown (equityCurve r) = Some l /\
    l == 1 * inject_Z (2 ^ Z.of_nat (count_type "Compounding" (tradeLog r))) /\
    count_type "Compounding" (tradeLog r) = 1%nat.
Proof.
  destruct (runBacktest_some Doubling.cfg Doubling.series) as [r Hr];
    [vm_compute; lia|].
  destruct (X_current_lots_power Doubling.cfg Doubling.series r Hr) as (l & Hl & He).
  exists r, l. split; [exact Hr|]. split; [exact Hl|]. split; [exact He|].
  assert (Hr' := Hr). vm_compute in Hr'. injection Hr' as Hr'.
  rewrite <- Hr'. reflexivity.
Defined.

(** ** Further properties of the engine: the summary *)

Lemma runBacktest_stats config fullData r :
  runBacktest config fullData = Some r ->
  exists e0 es,
    equityCurve r = e0 :: es /\
    maxLots (stats r) = Math_max_Q (ep_lots e0) (map ep_lots es) /\
    maxDD (stats r) = Math_max_Z (ep_drawdown e0) (map ep_drawdown es) /\
    avgAnnualRet (stats r) =
      match sumReturns (yearlyReturns r) with
      | Some s => jsdiv s (inject_Z (Z.of_nat (length (yearlyReturns r))))
      | None => None
      end.
Proof.
  unfold runBacktest. destruct fullData as [|x xs]; [discriminate|].
  destruct (filterData config (x :: xs)) as [|d0 [|d1 rest]]; try discriminate.
  unfold finalStats.
  destruct (equitySeries _) as [|e0 es]; [discriminate|].
  intros H. injection H as <-. exists e0, es. simpl. auto.
Qed.

Lemma adjacent_tail {A : Type} (R : A -> A -> Prop) (x : A) (l : list A) :
  adjacent R (x :: l) -> adjacent R l.
Proof. intros H i a b Ha Hb. exact (H (S i) a b Ha Hb). Qed.

Lemma fold_Qmax_comp (l : list Q) (a b : Q) :
  a == b -> fold_left Qmax l a == fold_left Qmax l b.
Proof.
  revert a b. induction l as [|x l IH]; intros a b H; simpl; [exact H|].
  apply IH. rewrite H. reflexivity.
Qed.

Lemma max_lots_is_last (e0 : EquityPoint) (es : list EquityPoint) :
  adjacent lots_step (e0 :: es) ->
  Forall (fun p => 0 <= ep_lots p) (e0 :: es) ->
  Math_max_Q (ep_lots e0) (map ep_lots es) == ep_lots (default e0 (last es)).
Proof.
  unfold Math_max_Q. revert e0. induction es as [|e1 es IH]; intros e0 Hadj Hnn.
  - reflexivity.
  - simpl map. simpl fold_left.
    assert (Hstep : lots_step e0 e1) by (apply (Hadj 0%nat); reflexivity).
    assert (H0 : 0 <= ep_lots e0) by (inversion Hnn; assumption).
    assert (Hle : ep_lots e0 <= ep_lots e1) by (destruct Hstep as [-> | ->]; lra).
    rewrite (fold_Qmax_comp _ _ (ep_lots e1) (Q.max_r _ _ Hle)).
    rewrite (IH e1 (adjacent_tail _ _ _ Hadj)) by (inversion Hnn; assumption).
    rewrite last_cons. destruct (last es); reflexivity.
Qed.

(** X8.  With a non-negative initialLots, maxLots of the summary is the lot
    size of the last equity point: the position never shrinks, so the
    largest size is the current one. *)
Theorem X_max_lots_is_current config fullData r :
  0 <= initialLots config ->
  runBacktest config fullData = Some r ->
  exists l, currentLotsShown (equityCurve r) = Some l /\ maxLots (stats r) == l.
Proof.
  intros Hpos Hrun.
  destruct (run_final_state _ _ _ Hrun)
    as (d0 & rest & _ & Hcurve & _ & [Hadj _] & _ & Hnn).
  destruct (Hnn Hpos) as [_ Hall].
  destruct (runBacktest_stats _ _ _ Hrun) as (e0 & es & Hc & Hmax & _).
  rewrite <- Hcurve, Hc in Hadj, Hall.
  exists (ep_lots (default e0 (last es))). split.
  - unfold currentLotsShown. rewrite Hc, last_cons. destruct (last es); reflexivity.
  - rewrite Hmax. apply max_lots_is_last; assumption.
Qed.

Lemma X_max_lots_is_current_witness :
  exists r l,
    runBacktest Doubling.cfg Doubling.series = Some r /\
    currentLotsShown (equityCurve r) = Some l /\ maxLots (stats r) == l.
Proof.
  destruct (runBacktest_some Doubling.cfg Doubling.series) as [r Hr];
    [vm_compute; lia|].
  assert (H0 : 0 <= initialLots Doubling.cfg) by (vm_compute; discriminate).
  destruct (X_max_lots_is_current Doubling.cfg Doubling.series r H0 Hr) as (l & Hl & He).
  exists r, l. auto.
Defined.

Lemma fold_Zmax_ge (l : list Z) (a : Z) :
  (a <= fold_left Z.max l a)%Z /\ Forall (fun x => (x <= fold_left Z.max l a)%Z) l.
Proof.
  revert a. induction l as [|x l IH]; intros a; simpl.
  - split; [lia | constructor].
  - destruct (IH (Z.max a x)) as [H1 H2]. split; [lia|].
    constructor; [lia | exact H2].
Qed.

Lemma fold_Zmax_in (l : list Z) (a : Z) : In (fold_left Z.max l a) (a :: l).
Proof.
  revert a. induction l as [|x l IH]; intros a.
  - left. reflexivity.
  - simpl fold_left. destruct (IH (Z.max a x)) as [H|H].
    + destruct (Z.max_spec a x) as [[_ E]|[_ E]]; rewrite E in *.
      * right. left. exact H.
      * left. exact H.
    + right. right. exact H.
Qed.

Lemma run_drawdown_nonneg config fullData r :
  runBacktest config fullData = Some r ->
  Forall (fun p => (0 <= ep_drawdown p)%Z) (equityCurve r).
Proof.
  intros Hrun. rewrite (runBacktest_log _ _ _ Hrun).
  destruct (runBacktest_inv _ _ _ Hrun) as (d0 & d1 & rest & Hf & _).
  unfold runLog. rewrite Hf. apply Forall_fmap.
  eapply Forall_impl; [apply dayLog_below_peak|].
  intros [[d eq] st'] Hle. simpl in *.
  apply toFixed_nonneg, drawdown_nonneg, Hle.
Qed.

(** X9.  maxDD of the summary is the largest drawdown on the equity curve: no
    point shows more, some point shows exactly it, and it is never
    negative. *)
Theorem X_max_drawdown config fullData r :
  runBacktest config fullData = Some r ->
  Forall (fun p => (ep_drawdown p <= maxDD (stats r))%Z) (equityCurve r) /\
  (exists p, In p (equityCurve r) /\ ep_drawdown p = maxDD (stats r)) /\
  (0 <= maxDD (stats r))%Z.
Proof.
  intros Hrun.
  destruct (runBacktest_stats _ _ _ Hrun) as (e0 & es & Hc & _ & Hdd & _).
  unfold Math_max_Z in Hdd.
  destruct (fold_Zmax_ge (map ep_drawdown es) (ep_drawdown e0)) as [H0 Hall].
  assert (Hex : exists p, In p (equityCurve r) /\ ep_drawdown p = maxDD (stats r)).
  { rewrite Hc, Hdd.
    destruct (fold_Zmax_in (map ep_drawdown es) (ep_drawdown e0)) as [H|H].
    - exists e0. split; [left; reflexivity | exact H].
    - apply in_map_iff in H as (p & Hp & Hin). exists p. split; [right; exact Hin | exact Hp]. }
  split; [|split; [exact Hex|]].
  - rewrite Hc, Hdd. constructor; [exact H0|].
    apply Forall_forall. intros p Hp. rewrite Forall_forall in Hall.
    apply Hall, list_elem_of_fmap. exists p. split; [reflexivity | exact Hp].
  - destruct Hex as (p & Hin & <-).
    assert (Hnn := run_drawdown_nonneg _ _ _ Hrun).
    rewrite Forall_forall in Hnn. apply Hnn, list_elem_of_In, Hin.
Qed.

Lemma X_max_drawdown_witness :
  exists r,
    runBacktest Crash.cfg Crash.series = Some r /\
    Forall (fun p => (ep_drawdown p <= maxDD (stats r))%Z) (equityCurve r) /\
    maxDD (stats r) = 20000%Z.
Proof.
  destruct (runBacktest_some Crash.cfg Crash.series) as [r Hr];
    [vm_compute; lia|].
  exists r. split; [exact Hr|].
  split; [exact (proj1 (X_max_drawdown Crash.cfg Crash.series r Hr))|].
  assert (Hr' := Hr). vm_compute in Hr'. injection Hr' as Hr'.
  rewrite <- Hr'. reflexivity.
Defined.

(** ** Further properties of the engine: cash and the ledger *)

Lemma total_realized_snoc l t :
  total_realized (l ++ [t]) == total_realized l + realized t.
Proof.
  induction l as [|x l IH]; simpl.
  - ring.
  - rewrite IH. ring.
Qed.

Lemma ledger_ok_snoc c0 c l c' t :
  ledger_ok c0 c l ->
  c' == c + realized t ->
  (trade_type t = "Rollover" -> snapshot t == c') ->
  ledger_ok c0 c' (l ++ [t]).
Proof.
  intros [Hc Hl] Hc' Ht. split.
  - rewrite total_realized_snoc, Hc', Hc. ring.
  - intros i x Hx Hty.
    destruct (decide (i < length l)%nat) as [Hlt|Hge].
    + rewrite lookup_app_l in Hx by exact Hlt.
      rewrite take_app_le by lia. apply Hl; assumption.
    + assert (Hi : i = length l).
      { apply lookup_lt_Some in Hx. rewrite length_app in Hx. simpl in Hx. lia. }
      subst i. rewrite list_lookup_middle in Hx by reflexivity. injection Hx as <-.
      rewrite take_ge by (rewrite length_app; simpl; lia).
      rewrite total_realized_snoc, (Ht Hty), Hc', Hc. ring.
Qed.

Lemma ledger_ok_step config c0 prev d st :
  ledger_ok c0 (cash st) (trades st) ->
  ledger_ok c0 (cash (step config prev d st)) (trades (step config prev d st)).
Proof.
  intros H. rewrite step_cash, step_trades.
  assert (H1 : ledger_ok c0 (cash (checkRollover config prev d st))
                         (trades (checkRollover config prev d st))).
  { unfold checkRollover. destruct prev as [p|]; [|exact H].
    destruct (negb _); [|exact H].
    unfold doRollover. cbn [cash trades].
    eapply ledger_ok_snoc; [exact H | reflexivity | intros _; reflexivity]. }
  unfold checkCompounding. destruct (compounding_due _ _ _); [|exact H1].
  cbn [trades]. eapply ledger_ok_snoc; [exact H1 | simpl; ring | discriminate].
Qed.

(** X10.  Cash accounting.  With the ledger read in chronological order, the
    cash at the end of a run is initialCapital plus the netPnL of all
    Rollover entries, and the equity shown by each Rollover entry is
    initialCapital plus the netPnL of the rollovers up to and including
    it; Compounding entries realize nothing. *)
Theorem X_cash_accounting config fullData r :
  runBacktest config fullData = Some r ->
  let ledger := rev (tradeLog r) in
  (exists d0 rest,
      filterData config fullData = d0 :: rest /\
      cash (loop config None (d0 :: rest) (initState config d0))
      == st_initialCapital (stats r) + total_realized ledger) /\
  (forall (i : nat) t,
      ledger !! i = Some t -> trade_type t = "Rollover" ->
      snapshot t == st_initialCapital (stats r) + total_realized (take (S i) ledger)).
Proof.
  intros Hrun ledger.
  destruct (runBacktest_inv _ _ _ Hrun) as (d0 & d1 & rest & Hf & Hr).
  cbv zeta in Hr. destruct Hr as (_ & _ & _ & Hlog & Hcap & _).
  assert (Hl : ledger = trades (loop config None (d0 :: d1 :: rest) (initState config d0))).
  { unfold ledger. rewrite Hlog. apply rev_involutive. }
  assert (Hinv : ledger_ok (initialCapital config d0)
                   (cash (loop config None (d0 :: d1 :: rest) (initState config d0)))
                   (trades (loop config None (d0 :: d1 :: rest) (initState config d0)))).
  { apply (loop_invariant config
             (fun st => ledger_ok (initialCapital config d0) (cash st) (trades st))).
    - intros prev d st. apply ledger_ok_step.
    - split; simpl; [ring | intros i t Hi; discriminate Hi]. }
  rewrite Hl, Hcap. destruct Hinv as [Hc Hs]. split.
  - exists d0, (d1 :: rest). split; [exact Hf | exact Hc].
  - exact Hs.
Qed.

Lemma X_cash_accounting_witness :
  exists r,
    runBacktest Scenario.cfg Scenario.series = Some r /\
    cash (loop Scenario.cfg None Scenario.series
            (initState Scenario.cfg (Scenario.obs "2020-01-01" 100 101 "A")))
    == st_initialCapital (stats r) + total_realized (rev (tradeLog r)).
Proof.
  destruct (runBacktest_some Scenario.cfg Scenario.series) as [r Hr];
    [vm_compute; lia|].
  exists r. split; [exact Hr|].
  destruct (X_cash_accounting Scenario.cfg Scenario.series r Hr)
    as [(d0 & rest & Hf & Hc) _].
  assert (Hf' : filterData Scenario.cfg Scenario.series = Scenario.series) by reflexivity.
  rewrite Hf' in Hf. unfold Scenario.series in Hf at 1. injection Hf as <- <-.
  exact Hc.
Defined.

(** ** Further properties of the engine: equity from one day to the next *)

Lemma checkRollover_same_label config p d st :
  expiry_near d = expiry_near p ->
  checkRollover config (Some p) d st = st.
Proof.
  intros He. unfold checkRollover. rewrite He, String.eqb_refl. reflexivity.
Qed.

(** X11.  From one day to the next the mark-to-market equity moves as follows,
    with [L] the lots held at the start of the first day and [fired]
    telling whether the first day doubled them.  Without a rollover on the
    second day it moves by the change of the near price on [L] lots, plus,
    after a doubling, the whole unrealized P&L per lot once more (the
    added lots take over the old entry price).  With a rollover it moves
    by the near price against the previous far price on the lots held,
    less their transaction cost, plus, after a doubling, the unrealized
    P&L realized on the added lots. *)
Theorem X_equity_day_over_day :
  forall config prev d1 d2 st,
    let st0 := checkRollover config prev d1 st in
    let eq1 := currentEquity d1 st0 in
    let fired := compounding_due config eq1 st0 in
    let eq2 := currentEquity d2
                 (checkRollover config (Some d1) d2 (step config prev d1 st)) in
    let L := currentLots st in
    let L' := if fired then L * 2 else L in
    (expiry_near d2 = expiry_near d1 ->
     eq2 - eq1 ==
     (price_near d2 - price_near d1) * CONTRACT_MULTIPLIER * L +
     (if fired then (price_near d2 - entryPrice st0) * CONTRACT_MULTIPLIER * L else 0)) /\
    (expiry_near d2 <> expiry_near d1 ->
     eq2 - eq1 ==
     (price_near d2 - price_far d1) * CONTRACT_MULTIPLIER * L' -
     transactionCost config * L' +
     (if fired then (price_near d1 - entryPrice st0) * CONTRACT_MULTIPLIER * L else 0)).
Proof.
  intros config prev d1 d2 st st0 eq1 fired eq2 L L'.
  assert (Hc : cash (step config prev d1 st) = cash st0) by apply step_cash.
  assert (He : entryPrice (step config prev d1 st) = entryPrice st0) by apply step_entry.
  assert (Hl : currentLots (step config prev d1 st) = L').
  { rewrite step_lots_due. reflexivity. }
  assert (Hl0 : currentLots st0 = L) by apply checkRollover_lots.
  split; intros Hlab.
  - unfold eq2. rewrite (checkRollover_same_label config d1 d2 _ Hlab).
    unfold eq1, currentEquity, unrealized. rewrite Hc, He, Hl, Hl0.
    unfold L'. destruct fired; ring.
  - unfold eq2. rewrite (checkRollover_change config d1 d2 _ Hlab).
    unfold eq1, currentEquity, unrealized, doRollover. cbn [cash entryPrice currentLots].
    rewrite Hc, He, Hl, Hl0.
    unfold L'. destruct fired; ring.
Qed.

Lemma X_equity_day_over_day_witness :
  let p := Scenario.obs "2020-01-02" 102 103 "A" in
  let d := Scenario.obs "2020-01-03" 102 104 "B" in
  let st := step Scenario.cfg None (Scenario.obs "2020-01-01" 100 101 "A")
              (initState Scenario.cfg (Scenario.obs "2020-01-01" 100 101 "A")) in
  expiry_near d <> expiry_near p /\
  currentEquity d (checkRollover Scenario.cfg (Some p) d
                     (step Scenario.cfg (Some (Scenario.obs "2020-01-01" 100 101 "A")) p st))
  - currentEquity p (checkRollover Scenario.cfg
                       (Some (Scenario.obs "2020-01-01" 100 101 "A")) p st)
  == -150.
Proof.
  cbv zeta.
  assert (Hne : expiry_near (Scenario.obs "2020-01-03" 102 104 "B") <>
                expiry_near (Scenario.obs "2020-01-02" 102 103 "A")) by discriminate.
  split; [exact Hne|].
  destruct (X_equity_day_over_day Scenario.cfg
              (Some (Scenario.obs "2020-01-01" 100 101 "A"))
              (Scenario.obs "2020-01-02" 102 103 "A")
              (Scenario.obs "2020-01-03" 102 104 "B")
              (step Scenario.cfg None (Scenario.obs "2020-01-01" 100 101 "A")
                 (initState Scenario.cfg (Scenario.obs "2020-01-01" 100 101 "A"))))
    as [_ H].
  cbv zeta in H. rewrite (H Hne). reflexivity.
Defined.

(** ** Further properties of the engine: holding one contract *)

Lemma hold_step config prev d st :
  compounding_enabled config = false ->
  (forall p, prev = Some p -> expiry_near d = expiry_near p) ->
  let st' := step config prev d st in
  cash st' = cash st /\ entryPrice st' = entryPrice st /\
  currentLots st' = currentLots st /\ trades st' = trades st /\
  currentEquity d (checkRollover config prev d st)
  = cash st + (price_near d - entryPrice st) * CONTRACT_MULTIPLIER * currentLots st.
Proof.
  intros Hoff Hlab. cbv zeta.
  assert (E : checkRollover config prev d st = st).
  { destruct prev as [p|]; [|reflexivity].
    apply checkRollover_same_label, Hlab. reflexivity. }
  rewrite step_cash, step_entry, step_lots_due, step_trades, E.
  unfold checkCompounding.
  rewrite (compounding_due_disabled config _ st Hoff).
  repeat split; reflexivity.
Qed.

Lemma hold_loop config lab data :
  compounding_enabled config = false ->
  Forall (fun d => expiry_near d = lab) data ->
  forall prev st,
    (forall p, prev = Some p -> expiry_near p = lab) ->
    map (fun e => e.1.2) (dayLog config prev data st) =
      map (fun d => cash st + (price_near d - entryPrice st)
                              * CONTRACT_MULTIPLIER * currentLots st) data /\
    trades (loop config prev data st) = trades st.
Proof.
  intros Hoff Hall. induction Hall as [|d data Hd Hall IH]; intros prev st Hprev.
  - split; reflexivity.
  - assert (Hlab : forall p, prev = Some p -> expiry_near d = expiry_near p).
    { intros p Hp. rewrite Hd. symmetry. apply Hprev, Hp. }
    destruct (hold_step config prev d st Hoff Hlab) as (Hc & He & Hl & Ht & Heq).
    destruct (IH (Some d) (step config prev d st)) as [IH1 IH2].
    { intros p Hp. injection Hp as <-. exact Hd. }
    cbn [dayLog loop map fst snd]. rewrite IH1, IH2, Hc, He, Hl, Ht, Heq.
    split; reflexivity.
Qed.

(** X12.  Buy and hold.  When the near label never changes over the filtered
    days and compounding is switched off, the run trades nothing and the
    equity of each day is round(initialCapital + (price_near of the day -
    price_near of the first day) * CONTRACT_MULTIPLIER * initialLots). *)
Theorem X_buy_and_hold config fullData r d0 rest :
  runBacktest config fullData = Some r ->
  filterData config fullData = d0 :: rest ->
  compounding_enabled config = false ->
  Forall (fun d => expiry_near d = expiry_near d0) rest ->
  tradeLog r = [] /\
  map ep_equity (equityCurve r) =
  map (fun d => Math_round (initialCapital config d0 +
                            (price_near d - price_near d0)
                            * CONTRACT_MULTIPLIER * initialLots config))
      (d0 :: rest).
Proof.
  intros Hrun Hf Hoff Hall.
  destruct (runBacktest_inv _ _ _ Hrun) as (d0' & d1 & rest' & Hf' & Hr).
  rewrite Hf in Hf'. injection Hf' as <- ->.
  cbv zeta in Hr. destruct Hr as (Hcurve & _ & _ & Hlog & _).
  assert (Hall' : Forall (fun d => expiry_near d = expiry_near d0) (d0 :: d1 :: rest'))
    by (constructor; [reflexivity | exact Hall]).
  destruct (hold_loop config (expiry_near d0) (d0 :: d1 :: rest') Hoff
              Hall' None (initState config d0))
    as [Heq Htr]; [intros p Hp; discriminate Hp|].
  split.
  - rewrite Hlog, Htr. reflexivity.
  - rewrite Hcurve, loop_equitySeries. cbn [equitySeries initState app].
    rewrite map_map.
    transitivity (map Math_round
                    (map (fun e => e.1.2)
                       (dayLog config None (d0 :: d1 :: rest') (initState config d0)))).
    + rewrite map_map. apply map_ext. intros [[d eq] st']. reflexivity.
    + rewrite Heq, map_map. reflexivity.
Qed.

Lemma X_buy_and_hold_witness :
  let config := mkConfig "2020-01-01" "2020-12-31" 1 10 50 200 false true in
  exists r,
    runBacktest config Crash.series = Some r /\
    tradeLog r = [] /\
    map ep_equity (equityCurve r) = [1000; -1000]%Z.
Proof.
  cbv zeta.
  destruct (runBacktest_some
              (mkConfig "2020-01-01" "2020-12-31" 1 10 50 200 false true)
              Crash.series) as [r Hr]; [vm_compute; lia|].
  destruct (X_buy_and_hold
              (mkConfig "2020-01-01" "2020-12-31" 1 10 50 200 false true)
              Crash.series r
              (Scenario.obs "2020-01-01" 100 101 "A")
              [Scenario.obs "2020-01-02" 80 81 "A"] Hr) as [Ht He].
  - reflexivity.
  - reflexivity.
  - repeat constructor.
  - exists r. split; [exact Hr|]. split; [exact Ht|]. rewrite He. reflexivity.
Defined.

(** ** Further properties of the engine: the order of the trade log *)

Lemma ssorted_rev {A : Type} (R : relation A) (l : list A) :
  StronglySorted R l -> StronglySorted (flip R) (rev l).
Proof.
  induction l as [|x l IH]; intros H; simpl.
  - constructor.
  - apply StronglySorted_cons in H as [Hall Hs].
    apply StronglySorted_app_2.
    + intros a b Ha Hb. apply list_elem_of_singleton in Hb as ->.
      apply list_elem_of_In, in_rev, list_elem_of_In in Ha.
      rewrite Forall_forall in Hall. exact (Hall a Ha).
    + apply IH, Hs.
    + repeat constructor.
Qed.

Lemma loop_trades_sorted config data :
  StronglySorted str_le (map date data) ->
  forall prev st,
    StronglySorted str_le (map trade_date (trades st)) ->
    (forall t d, t ∈ trades st -> d ∈ data -> str_le (trade_date t) (date d)) ->
    StronglySorted str_le (map trade_date (trades (loop config prev data st))).
Proof.
  induction data as [|d data IH]; intros Hs prev st Hst Hle; [exact Hst|].
  simpl in Hs. apply StronglySorted_cons in Hs as [Hall Hs].
  simpl loop. destruct (step_new_trades config prev d st) as (new & E & Hnew).
  apply IH; [exact Hs | |].
  - rewrite E, map_app. apply StronglySorted_app_2.
    + intros a b Ha Hb.
      apply list_elem_of_fmap in Ha as (t & -> & Ht).
      apply list_elem_of_fmap in Hb as (t' & -> & Ht').
      rewrite Forall_forall in Hnew. rewrite (Hnew t' Ht').
      apply Hle; [exact Ht | left].
    + exact Hst.
    + clear -Hnew. induction Hnew as [|t l Ht Hl IHl]; simpl; constructor.
      * exact IHl.
      * apply Forall_forall. intros y Hy.
        apply list_elem_of_fmap in Hy as (t' & -> & Ht').
        rewrite Forall_forall in Hl. rewrite Ht, (Hl t' Ht'). reflexivity.
  - intros t d' Ht Hd'. rewrite E in Ht. apply elem_of_app in Ht as [Ht|Ht].
    + apply Hle; [exact Ht | right; exact Hd'].
    + rewrite Forall_forall in Hnew. rewrite Forall_forall in Hall.
      rewrite (Hnew t Ht).
      apply Hall, list_elem_of_fmap. exists d'. split; [reflexivity | exact Hd'].
Qed.

(** X13.  The trade log is most recent first: when the dates of the filtered
    days ascend, the dates of the trade log descend, and each of them is
    the date of a filtered day. *)
Theorem X_trade_log_most_recent_first config fullData r :
  runBacktest config fullData = Some r ->
  StronglySorted str_le (map date (filterData config fullData)) ->
  StronglySorted (flip str_le) (map trade_date (tradeLog r)) /\
  Forall (fun t => In (trade_date t) (map date (filterData config fullData)))
         (tradeLog r).
Proof.
  intros Hrun Hs.
  destruct (runBacktest_inv _ _ _ Hrun) as (d0 & d1 & rest & Hf & Hr).
  cbv zeta in Hr. destruct Hr as (_ & _ & _ & Hlog & _).
  rewrite Hf in *. rewrite Hlog. split.
  - rewrite map_rev. apply ssorted_rev.
    apply loop_trades_sorted; [exact Hs | constructor |].
    intros t d Ht. inversion Ht.
  - apply Forall_rev.
    destruct (loop_trades_dates config None (d0 :: d1 :: rest) (initState config d0))
      as (new & E & Hnew).
    rewrite E. exact Hnew.
Qed.

Lemma X_trade_log_most_recent_first_witness :
  exists r,
    runBacktest BothEvents.cfg BothEvents.series = Some r /\
    StronglySorted (flip str_le) (map trade_date (tradeLog r)).
Proof.
  destruct (runBacktest_some BothEvents.cfg BothEvents.series) as [r Hr];
    [vm_compute; lia|].
  exists r. split; [exact Hr|].
  refine (proj1 (X_trade_log_most_recent_first BothEvents.cfg BothEvents.series r Hr _)).
  repeat (constructor; [|repeat (constructor; try reflexivity)]). constructor.
Defined.

(** ** The summary: average annual return and total return *)

Lemma sumReturns_finite yoy :
  Forall (fun y => yr_return y <> None) yoy ->
  forall a,
    fold_left (fun acc curr =>
                 match acc, yr_return curr with
                 | Some a, Some r => Some (a + parseFloat 1 r)
                 | _, _ => None
                 end) yoy (Some a)
    = Some (fold_left (fun acc y => acc + parseFloat 1 (default 0%Z (yr_return y))) yoy a).
Proof.
  induction 1 as [|y yoy Hy Hall IH]; intros a; simpl; [reflexivity|].
  destruct (yr_return y) as [t|]; [|congruence]. apply IH.
Qed.

Lemma sumReturns_none yoy :
  fold_left (fun acc curr =>
               match acc, yr_return curr with
               | Some a, Some r => Some (a + parseFloat 1 r)
               | _, _ => None
               end) yoy None = None.
Proof. induction yoy as [|y yoy IH]; simpl; [reflexivity | exact IH]. Qed.

Lemma sumReturns_nonfinite yoy :
  Exists (fun y => yr_return y = None) yoy -> sumReturns yoy = None.
Proof.
  intros Hex. unfold sumReturns. generalize (Some 0).
  induction Hex as [y yoy Hy | y yoy Hex IH]; intros acc; simpl.
  - rewrite Hy. destruct acc; apply sumReturns_none.
  - apply IH.
Qed.

Lemma run_has_a_year config fullData r :
  runBacktest config fullData = Some r -> (0 < length (yearlyReturns r))%nat.
Proof.
  intros Hrun.
  destruct (runBacktest_inv _ _ _ Hrun) as (d0 & d1 & rest & _ & Hr).
  cbv zeta in Hr. destruct Hr as (Hcurve & _ & Hyoy & _).
  destruct (runBacktest_stats _ _ _ Hrun) as (e0 & es & Hc & _).
  rewrite Hyoy, <- Hcurve, Hc, calculateYoY_rows, length_map.
  rewrite <- (length_map (fun row => row.1.1)). unfold yearRows. rewrite yoyRows_years.
  assert (Hin : point_year e0 ∈ sorted_years (yearsMap_of (e0 :: es))).
  { apply sorted_years_elem, yearsMap_is_Some. exists e0. split; [left | reflexivity]. }
  destruct (sorted_years _); [inversion Hin | simpl; lia].
Qed.

(** X14.  The average annual return of the summary is the arithmetic mean of the
    yearly returns as printed, one decimal each; a run has at least one
    year; and one non-finite yearly return makes the average non-finite. *)
Theorem X_average_of_printed_returns config fullData r :
  runBacktest config fullData = Some r ->
  (0 < length (yearlyReturns r))%nat /\
  (Forall (fun y => yr_return y <> None) (yearlyReturns r) ->
   avgAnnualRet (stats r) =
   Some (printed_sum (yearlyReturns r)
         / inject_Z (Z.of_nat (length (yearlyReturns r))))) /\
  (Exists (fun y => yr_return y = None) (yearlyReturns r) ->
   avgAnnualRet (stats r) = None).
Proof.
  intros Hrun. assert (Hlen := run_has_a_year _ _ _ Hrun).
  destruct (runBacktest_stats _ _ _ Hrun) as (e0 & es & _ & _ & _ & Havg).
  split; [exact Hlen|]. split.
  - intros Hfin. rewrite Havg. unfold sumReturns.
    rewrite (sumReturns_finite _ Hfin). unfold jsdiv, printed_sum.
    destruct (Qeq_bool _ 0) eqn:E; [|reflexivity].
    apply Qeq_bool_iff in E. exfalso.
    apply (inject_Z_nonzero (Z.of_nat (length (yearlyReturns r)))); [lia | exact E].
  - intros Hex. rewrite Havg, (sumReturns_nonfinite _ Hex). reflexivity.
Qed.

Lemma X_average_of_printed_returns_witness :
  exists r,
    runBacktest NegativeStart.cfg NegativeStart.series = Some r /\
    avgAnnualRet (stats r) =
    Some (printed_sum (yearlyReturns r)
          / inject_Z (Z.of_nat (length (yearlyReturns r)))).
Proof.
  destruct (runBacktest_some NegativeStart.cfg NegativeStart.series) as [r Hr];
    [vm_compute; lia|].
  exists r. split; [exact Hr|].
  apply (proj1 (proj2 (X_average_of_printed_returns _ _ r Hr))).
  assert (Hr' := Hr). vm_compute in Hr'. injection Hr' as Hr'.
  rewrite <- Hr'. repeat constructor; discriminate.
Defined.

(** X15.  The sign of the total return (the colour of its card).  For a positive
    initialCapital the total return is finite and is non-negative exactly
    when finalEquity is at least initialCapital; for a negative
    initialCapital the sign is the other way round. *)
Theorem X_total_return_sign config fullData r :
  runBacktest config fullData = Some r ->
  let c := st_initialCapital (stats r) in
  let f := inject_Z (finalCapital (stats r)) in
  (0 < c -> exists t, totalReturn (stats r) = Some t /\ (0 <= t <-> c <= f)) /\
  (c < 0 -> exists t, totalReturn (stats r) = Some t /\ (0 <= t <-> f <= c)).
Proof.
  intros Hrun c f. rewrite (runBacktest_totalReturn _ _ _ Hrun). fold c f.
  unfold jsdiv. split; intros Hc.
  - destruct (Qeq_bool c 0) eqn:E; [apply Qeq_bool_iff in E; lra|].
    eexists. split; [reflexivity|]. cbv beta.
    assert (Hi : 0 < / c) by (apply Qinv_lt_0_compat; exact Hc).
    unfold Qdiv. split; intros H.
    + assert (H1 : 0 <= (f - c) * / c) by lra.
      assert (H2 : 0 <= (f - c) * / c * c) by (apply Qmult_le_0_compat; lra).
      assert (H3 : (f - c) * / c * c == f - c) by (field; lra).
      lra.
    + assert (H1 : 0 <= (f - c) * / c) by (apply Qmult_le_0_compat; lra).
      lra.
  - destruct (Qeq_bool c 0) eqn:E; [apply Qeq_bool_iff in E; lra|].
    eexists. split; [reflexivity|]. cbv beta.
    assert (Hi : 0 < / - c) by (apply Qinv_lt_0_compat; lra).
    assert (Hn : (f - c) * / c == (c - f) * / - c) by (field; lra).
    unfold Qdiv. rewrite Hn. split; intros H.
    + assert (H1 : 0 <= (c - f) * / - c) by lra.
      assert (H2 : 0 <= (c - f) * / - c * - c) by (apply Qmult_le_0_compat; lra).
      assert (H3 : (c - f) * / - c * - c == c - f) by (field; lra).
      lra.
    + assert (H1 : 0 <= (c - f) * / - c) by (apply Qmult_le_0_compat; lra).
      lra.
Qed.

Lemma X_total_return_sign_witness :
  exists r t,
    runBacktest Crash.cfg Crash.series = Some r /\
    0 < st_initialCapital (stats r) /\
    totalReturn (stats r) = Some t /\
    (0 <= t <-> st_initialCapital (stats r) <= inject_Z (finalCapital (stats r))).
Proof.
  destruct (runBacktest_some Crash.cfg Crash.series) as [r Hr];
    [vm_compute; lia|].
  assert (Hr' := Hr). vm_compute in Hr'. injection Hr' as Hr'.
  assert (Hc : 0 < st_initialCapital (stats r)) by (rewrite <- Hr'; reflexivity).
  destruct (proj1 (X_total_return_sign Crash.cfg Crash.series r Hr) Hc) as (t & Ht & Hs).
  exists r, t. auto.
Defined.

(** ** The year of a date *)

Lemma year_of_no_dash s : no_dash s = true -> year_of s = s.
Proof.
  induction s as [|c s IH]; simpl; [reflexivity|].
  destruct (Ascii.eqb c "-"); simpl; [discriminate|].
  intros H. rewrite (IH H). reflexivity.
Qed.

Lemma year_of_prefix y rest :
  no_dash y = true -> year_of (y ++ String "-" rest) = y.
Proof.
  induction y as [|c y IH]; simpl; [reflexivity|].
  destruct (Ascii.eqb c "-"); simpl; [discriminate|].
  intros H. rewrite (IH H). reflexivity.
Qed.

Lemma year_of_shape s :
  no_dash (year_of s) = true /\ String.prefix (year_of s) s = true.
Proof.
  induction s as [|c s [IH1 IH2]]; simpl; [split; reflexivity|].
  destruct (Ascii.eqb c "-") eqn:E; simpl; [split; reflexivity|].
  rewrite E, IH1. simpl. destruct (ascii_dec c c); [|congruence].
  split; [reflexivity | exact IH2].
Qed.

(** X16.  The year under which [calculateYoY] files an equity point, which is
    also the tick label of the equity chart, is the part of the date before
    its first dash: the whole string when there is no dash, and [y] for
    every date of the form [y-...] with no dash in [y]; it is always a
    dash-free prefix of the date. *)
Theorem X_year_of_date :
  (forall y rest, no_dash y = true -> year_of (y ++ String "-" rest) = y) /\
  (forall s, no_dash s = true -> year_of s = s) /\
  (forall s, no_dash (year_of s) = true /\ String.prefix (year_of s) s = true) /\
  (forall y r1 r2 p q,
      no_dash y = true ->
      ep_date p = y ++ String "-" r1 -> ep_date q = y ++ String "-" r2 ->
      point_year p = point_year q).
Proof.
  split; [exact year_of_prefix|]. split; [exact year_of_no_dash|].
  split; [exact year_of_shape|].
  intros y r1 r2 p q Hy Hp Hq. unfold point_year.
  rewrite Hp, Hq, !year_of_prefix by exact Hy. reflexivity.
Qed.

Lemma X_year_of_date_witness :
  no_dash "2014" = true /\
  year_of ("2014" ++ String "-" "03-07") = "2014" /\
  year_of "2014" = "2014".
Proof.
  destruct X_year_of_date as (H1 & H2 & _).
  split; [reflexivity|]. split; [apply H1; reflexivity | apply H2; reflexivity].
Defined.

(** ** Printed numbers read back *)

Lemma Qfloor_half (n : Z) : Qfloor (inject_Z n + (1 # 2)) = n.
Proof.
  unfold Qfloor, inject_Z, Qplus. simpl.
  symmetry. apply (Z.div_unique _ _ _ 1); lia.
Qed.

Lemma pow10_pos (f : nat) : 0 < inject_Z (10 ^ Z.of_nat f).
Proof.
  change 0 with (inject_Z 0). rewrite <- Zlt_Qlt. apply Z.pow_pos_nonneg; lia.
Qed.

(** A string printed by [toFixed] with [f] decimals parses back to a
    number that prints as the same string. *)
Lemma toFixed_parseFloat (f : nat) (n : Z) : toFixed f (parseFloat f n) = n.
Proof.
  unfold toFixed, parseFloat.
  assert (Hp := pow10_pos f).
  assert (Hs : inject_Z n / inject_Z (10 ^ Z.of_nat f) * inject_Z (10 ^ Z.of_nat f)
               == inject_Z n) by (field; lra).
  destruct (Qle_bool 0 (inject_Z n / inject_Z (10 ^ Z.of_nat f))) eqn:E.
  - rewrite <- (Qfloor_half n) at 2. apply Qfloor_comp. rewrite Hs. reflexivity.
  - assert (Hg : Qfloor (- (inject_Z n / inject_Z (10 ^ Z.of_nat f)
                             * inject_Z (10 ^ Z.of_nat f)) + (1 # 2)) = (- n)%Z).
    { rewrite <- (Qfloor_half (- n)). apply Qfloor_comp.
      rewrite Hs, inject_Z_opp. reflexivity. }
    rewrite Hg. lia.
Qed.

(** X17.  [parserSigned] shows a finite yearly return at the same one-decimal
    value it was stored with, and puts a plus sign in front of it exactly
    when it is above zero. *)
Theorem X_parser_signed :
  forall n : Z,
    parserSigned (Some n) = Some (if (0 <? n)%Z then "+" else "", n).
Proof.
  intros n. unfold parserSigned. rewrite toFixed_parseFloat. f_equal. f_equal.
  assert (Hp := pow10_pos 1).
  destruct (Qlt_le_dec 0 (parseFloat 1 n)) as [H|H]; unfold parseFloat in H.
  - assert (H1 : 0 < inject_Z n).
    { assert (E : inject_Z n == inject_Z n / inject_Z (10 ^ Z.of_nat 1)
                                * inject_Z (10 ^ Z.of_nat 1)) by (field; lra).
      rewrite E. apply Qmult_lt_0_compat; assumption. }
    change 0 with (inject_Z 0) in H1. rewrite <- Zlt_Qlt in H1.
    apply Z.ltb_lt in H1. rewrite H1. reflexivity.
  - assert (H1 : inject_Z n <= 0).
    { assert (E : inject_Z n == inject_Z n / inject_Z (10 ^ Z.of_nat 1)
                                * inject_Z (10 ^ Z.of_nat 1)) by (field; lra).
      assert (H2 := Qmult_le_compat_r _ _ (inject_Z (10 ^ Z.of_nat 1)) H
                      (Qlt_le_weak _ _ Hp)).
      rewrite <- E in H2. lra. }
    change 0 with (inject_Z 0) in H1. rewrite <- Zle_Qle in H1.
    destruct (0 <? n)%Z eqn:E; [apply Z.ltb_lt in E; lia | reflexivity].
Qed.

(** ** Contract names in the premium chart *)

Lemma string_length_2 s :
  String.length s = 2%nat -> exists a b, s = String a (String b EmptyString).
Proof.
  destruct s as [|a [|b [|c s]]]; simpl; intros H; try discriminate H.
  exists a, b. reflexivity.
Qed.

Lemma string_length_3 s :
  String.length s = 3%nat ->
  exists a b c, s = String a (String b (String c EmptyString)).
Proof.
  destruct s as [|a [|b [|c [|d s]]]]; simpl; intros H; try discriminate H.
  exists a, b, c. reflexivity.
Qed.

(** X18.  For an expiry label made of a two-character day, a three-character
    month, a two-character century and a two-character year (and whatever
    follows), the tooltip names the contract GOLD, month, year, FUT, and
    [formatExp] prints the month, a space, an apostrophe and the year; the
    day and the century are dropped and no character is changed. *)
Theorem X_contract_label dd mmm cc yy rest :
  String.length dd = 2%nat -> String.length mmm = 3%nat ->
  String.length cc = 2%nat -> String.length yy = 2%nat ->
  let e := dd ++ mmm ++ cc ++ yy ++ rest in
  contractLabel (Some e) = "GOLD" ++ mmm ++ yy ++ "FUT" /\
  formatExp (Some e) = Some (mmm ++ " '" ++ yy) /\
  String.length (contractLabel (Some e)) = 12%nat.
Proof.
  intros Hd Hm Hc Hy.
  destruct (string_length_2 dd Hd) as (d1 & d2 & ->).
  destruct (string_length_3 mmm Hm) as (m1 & m2 & m3 & ->).
  destruct (string_length_2 cc Hc) as (c1 & c2 & ->).
  destruct (string_length_2 yy Hy) as (y1 & y2 & ->).
  cbv zeta. destruct rest as [|r rest]; (split; [|split]); vm_compute; reflexivity.
Qed.

Lemma X_contract_label_witness :
  contractLabel (Some "05Dec2025") = "GOLDDec25FUT" /\
  formatExp (Some "05Dec2025") = Some "Dec '25".
Proof.
  destruct (X_contract_label "05" "Dec" "20" "25" "" eq_refl eq_refl eq_refl eq_refl)
    as (H1 & H2 & _).
  split; [exact H1 | exact H2].
Defined.

(** X19.  An expiry label of fewer than nine characters, or a missing one, is
    not taken apart: the tooltip falls back to the name Gold Price and
    [formatExp] returns its argument as it is. *)
Theorem X_short_label_fallback :
  (forall e, (String.length e < 9)%nat ->
             contractLabel (Some e) = "Gold Price" /\ formatExp (Some e) = Some e) /\
  contractLabel None = "Gold Price" /\ formatExp None = None.
Proof.
  split; [|split; reflexivity].
  intros e Hlen. unfold contractLabel, formatExp.
  assert (H1 : (9 <=? String.length e)%nat = false) by (apply Nat.leb_gt; exact Hlen).
  assert (H2 : (String.length e <? 9)%nat = true) by (apply Nat.ltb_lt; exact Hlen).
  rewrite H1, H2, andb_false_r, orb_true_r. split; reflexivity.
Qed.

Lemma X_short_label_fallback_witness :
  (String.length "Dec2025" < 9)%nat /\
  contractLabel (Some "Dec2025") = "Gold Price" /\
  formatExp (Some "Dec2025") = Some "Dec2025".
Proof.
  assert (H : (String.length "Dec2025" < 9)%nat) by (simpl; lia).
  split; [exact H|]. exact (proj1 X_short_label_fallback "Dec2025" H).
Defined.
